(** * Vendor roll-up job ([vendor_cleaning_script.py])

    The script is one linear pass:

    - a SQL query (three summarising common table expressions,
      [Freight_summary], [Purchase_summary], [sales_summary], joined into
      [vendor_table]) read into a pandas DataFrame,
    - a pandas clean-up ([astype], [fillna], [str.strip]) and four derived
      columns,
    - [to_sql] replacing the table [vendor_cleaned].

    The SQL part is embedded over lists of rows (bags in some physical
    order) with exact amounts, so that [SUM] does not depend on the order
    in which the store visits a group.  The pandas part is embedded over
    rows of binary64 values ([spec_float] of the standard library,
    precision 53, [emax] 1024) and of Python objects for the text columns,
    which pandas keeps in columns of dtype [object].  A run of the script
    that raises is [None]. *)

From Stdlib Require Import ZArith Lia Ascii String.
From Stdlib Require Import Floats.SpecFloat.
From stdpp Require Import base decidable option list numbers strings sorting.

Local Open Scope Z_scope.

(** ** Source tables *)

(** Modelled from the spec: the schema of the four source tables, which the
    repository does not contain.  Section 3 of the specification lists the
    columns; the identifiers [VendorNumber]/[VendorNo] are integers, [Brand]
    is a text identifier as in the scenario of section 8, the amounts
    ([Freight], [Quantity], [Dollars], the prices and the sales measures)
    are exact numbers, integral as in that scenario, and not null; [Volume]
    is an integer column (section 4.1, step 5, allows text or integer).
    The free-text columns [VendorName] and [Description] are nullable
    (section 4.1, step 6, speaks of nulls in [VendorName]); a text is the
    sequence of its code points, taken below 256. *)
Record vendor_invoice_row := {
  vi_VendorNumber : Z;
  vi_Freight : Z
}.

(** Modelled from the spec: the table [purchases] (section 3). *)
Record purchases_row := {
  p_VendorNumber : Z;
  p_VendorName : option string;
  p_Brand : string;
  p_Description : option string;
  p_PurchasePrice : Z;
  p_Quantity : Z;
  p_Dollars : Z
}.

(** Modelled from the spec: the reference table [purchase_prices]
    (section 3). *)
Record purchase_prices_row := {
  pp_Brand : string;
  pp_Volume : Z;
  pp_Price : Z
}.

(** Modelled from the spec: the table [sales] (section 3). *)
Record sales_row := {
  s_VendorNo : Z;
  s_Brand : string;
  s_SalesQuantity : Z;
  s_SalesPrice : Z;
  s_SalesDollars : Z;
  s_ExciseTax : Z
}.

(** ** Relational operators *)

(** [SUM(...)] over the rows of one group. *)
Definition SUM (l : list Z) : Z := foldr Z.add 0 l.

(** [GROUP BY key]: one group per distinct key, holding the rows of that
    key. *)
Definition group_by {R K : Type} `{EqDecision K}
    (key : R → K) (rows : list R) : list (K * list R) :=
  (λ k, (k, filter (λ r, key r = k) rows)) <$> remove_dups (key <$> rows).

(** [l JOIN r ON on]: the pairs of the product that satisfy [on]. *)
Definition inner_join {A B : Type} (on : A * B → Prop)
    `{∀ j, Decision (on j)} (l : list A) (r : list B) : list (A * B) :=
  a ← l; (λ b, (a, b)) <$> filter (λ b, on (a, b)) r.

(** [l LEFT JOIN r ON on]: a row of [l] without partner is kept once, with
    nulls on the right. *)
Definition left_join {A B : Type} (on : A * B → Prop)
    `{∀ j, Decision (on j)} (l : list A) (r : list B)
    : list (A * option B) :=
  a ← l;
  match filter (λ b, on (a, b)) r with
  | [] => [(a, None)]
  | ms => (λ b, (a, Some b)) <$> ms
  end.

(** ** The query *)

(** [Freight_summary]: [SELECT "VendorNumber", SUM("Freight") AS FreightCost
    FROM vendor_invoice GROUP BY "VendorNumber"]. *)
Record Freight_summary_row := {
  cs_VendorNumber : Z;
  cs_freightcost : Z
}.

Definition Freight_summary_of_group (g : Z * list vendor_invoice_row)
    : Freight_summary_row :=
  {| cs_VendorNumber := g.1;
     cs_freightcost := SUM (vi_Freight <$> g.2) |}.

Definition Freight_summary (vendor_invoice : list vendor_invoice_row)
    : list Freight_summary_row :=
  Freight_summary_of_group <$> group_by vi_VendorNumber vendor_invoice.

(** [Purchase_summary]: purchases joined to [purchase_prices] on [Brand],
    filtered on [PurchasePrice > 0], grouped by the seven selected
    columns. *)
Record Purchase_summary_row := {
  ps_VendorNumber : Z;
  ps_VendorName : option string;
  ps_Brand : string;
  ps_Description : option string;
  ps_PurchasePrice : Z;
  ps_Volume : Z;
  ps_actualprice : Z;
  ps_totalpurchasequantity : Z;
  ps_totalpurchasedollars : Z
}.

Definition ps_key : Type :=
  Z * option string * string * option string * Z * Z * Z.

Definition purchase_key (j : purchases_row * purchase_prices_row) : ps_key :=
  (p_VendorNumber j.1, p_VendorName j.1, p_Brand j.1, p_Description j.1,
   p_PurchasePrice j.1, pp_Volume j.2, pp_Price j.2).

Definition purchases_joined (purchases : list purchases_row)
    (purchase_prices : list purchase_prices_row)
    : list (purchases_row * purchase_prices_row) :=
  filter (λ j, 0 < p_PurchasePrice j.1)
    (inner_join (λ j, p_Brand j.1 = pp_Brand j.2) purchases purchase_prices).

Definition Purchase_summary_of_group
    (g : ps_key * list (purchases_row * purchase_prices_row))
    : Purchase_summary_row :=
  let '(vn, name, brand, descr, price, volume, actual) := g.1 in
  {| ps_VendorNumber := vn;
     ps_VendorName := name;
     ps_Brand := brand;
     ps_Description := descr;
     ps_PurchasePrice := price;
     ps_Volume := volume;
     ps_actualprice := actual;
     ps_totalpurchasequantity := SUM ((λ j, p_Quantity j.1) <$> g.2);
     ps_totalpurchasedollars := SUM ((λ j, p_Dollars j.1) <$> g.2) |}.

Definition Purchase_summary (purchases : list purchases_row)
    (purchase_prices : list purchase_prices_row)
    : list Purchase_summary_row :=
  Purchase_summary_of_group
    <$> group_by purchase_key (purchases_joined purchases purchase_prices).

(** [sales_summary]: sales grouped by [("VendorNo", "Brand")]. *)
Record sales_summary_row := {
  ss_VendorNo : Z;
  ss_Brand : string;
  ss_totalsalesquantity : Z;
  ss_totalsalesprice : Z;
  ss_totalsalesdollars : Z;
  ss_totalexcisetax : Z
}.

Definition sales_key (s : sales_row) : Z * string :=
  (s_VendorNo s, s_Brand s).

Definition sales_summary_of_group (g : Z * string * list sales_row)
    : sales_summary_row :=
  {| ss_VendorNo := g.1.1;
     ss_Brand := g.1.2;
     ss_totalsalesquantity := SUM (s_SalesQuantity <$> g.2);
     ss_totalsalesprice := SUM (s_SalesPrice <$> g.2);
     ss_totalsalesdollars := SUM (s_SalesDollars <$> g.2);
     ss_totalexcisetax := SUM (s_ExciseTax <$> g.2) |}.

Definition sales_summary (sales : list sales_row) : list sales_summary_row :=
  sales_summary_of_group <$> group_by sales_key sales.

(** [vendor_table]: the purchase summary left-joined to the sales summary
    on vendor and brand, then to the freight summary on the vendor, ordered
    by [totalpurchasedollars DESC].  The columns coming from a left join
    are nullable. *)
Record vendor_table_row := {
  vt_VendorNumber : Z;
  vt_VendorName : option string;
  vt_Brand : string;
  vt_Description : option string;
  vt_PurchasePrice : Z;
  vt_actualprice : Z;
  vt_Volume : Z;
  vt_totalpurchasedollars : Z;
  vt_totalpurchasequantity : Z;
  vt_freightcost : option Z;
  vt_totalsalesprice : option Z;
  vt_totalsalesquantity : option Z;
  vt_totalsalesdollars : option Z;
  vt_totalexcisetax : option Z
}.

Definition vendor_table_select
    (j : Purchase_summary_row * option sales_summary_row
         * option Freight_summary_row) : vendor_table_row :=
  let '(ps, ss, cs) := j in
  {| vt_VendorNumber := ps_VendorNumber ps;
     vt_VendorName := ps_VendorName ps;
     vt_Brand := ps_Brand ps;
     vt_Description := ps_Description ps;
     vt_PurchasePrice := ps_PurchasePrice ps;
     vt_actualprice := ps_actualprice ps;
     vt_Volume := ps_Volume ps;
     vt_totalpurchasedollars := ps_totalpurchasedollars ps;
     vt_totalpurchasequantity := ps_totalpurchasequantity ps;
     vt_freightcost := cs_freightcost <$> cs;
     vt_totalsalesprice := ss_totalsalesprice <$> ss;
     vt_totalsalesquantity := ss_totalsalesquantity <$> ss;
     vt_totalsalesdollars := ss_totalsalesdollars <$> ss;
     vt_totalexcisetax := ss_totalexcisetax <$> ss |}.

(** [ORDER BY totalpurchasedollars DESC]: [r1] may precede [r2]. *)
Definition purchase_dollars_desc (r1 r2 : vendor_table_row) : Prop :=
  vt_totalpurchasedollars r2 ≤ vt_totalpurchasedollars r1.

#[global] Instance purchase_dollars_desc_dec :
  RelDecision purchase_dollars_desc.
Proof. intros r1 r2. unfold purchase_dollars_desc. apply _. Defined.

(** The four source tables the query reads. *)
Record sources := {
  vendor_invoice : list vendor_invoice_row;
  purchases : list purchases_row;
  purchase_prices : list purchase_prices_row;
  sales : list sales_row
}.

Definition vendor_table_unordered (src : sources) : list vendor_table_row :=
  vendor_table_select <$>
    left_join (λ j, ps_VendorNumber j.1.1 = cs_VendorNumber j.2)
      (left_join
         (λ j, ps_VendorNumber j.1 = ss_VendorNo j.2
               ∧ ps_Brand j.1 = ss_Brand j.2)
         (Purchase_summary (purchases src) (purchase_prices src))
         (sales_summary (sales src)))
      (Freight_summary (vendor_invoice src)).

(** Among rows of equal [totalpurchasedollars] SQL leaves the order open;
    the sort fixes one, on which no property below depends. *)
Definition vendor_table (src : sources) : list vendor_table_row :=
  merge_sort purchase_dollars_desc (vendor_table_unordered src).

(** ** The DataFrame *)

(** binary64 arithmetic of numpy. *)
Definition float64 : Type := spec_float.
Definition f64_sub : float64 → float64 → float64 := SFsub 53 1024.
Definition f64_mul : float64 → float64 → float64 := SFmul 53 1024.
Definition f64_div : float64 → float64 → float64 := SFdiv 53 1024.
Definition NaN : float64 := S754_nan.
Definition zero : float64 := S754_zero false.
Definition neg_infinity : float64 := S754_infinity true.

(** An integer as the nearest binary64 (ties to even), the conversion of
    [float(...)] and of [astype('float64')] on an integer column. *)
Definition f64_of_Z (z : Z) : float64 := binary_normalize 53 1024 z 0 false.

(** A cell of an [object] column: a Python [str], a Python [int] (what
    [fillna(0)] writes) or a missing value ([None]/[NaN]). *)
Inductive pyobj :=
  | PyStr (s : string)
  | PyInt (z : Z)
  | PyNA.

(** One row of [df]; [V] is the element type of the column [Volume], which
    line 72 changes. *)
Record DataFrame_row (V : Type) := {
  VendorNumber : Z;
  VendorName : pyobj;
  Brand : string;
  Description : pyobj;
  PurchasePrice : float64;
  actualprice : float64;
  Volume : V;
  totalpurchasedollars : float64;
  totalpurchasequantity : float64;
  freightcost : float64;
  totalsalesprice : float64;
  totalsalesquantity : float64;
  totalsalesdollars : float64;
  totalexcisetax : float64
}.
Arguments VendorNumber {V} _.
Arguments VendorName {V} _.
Arguments Brand {V} _.
Arguments Description {V} _.
Arguments PurchasePrice {V} _.
Arguments actualprice {V} _.
Arguments Volume {V} _.
Arguments totalpurchasedollars {V} _.
Arguments totalpurchasequantity {V} _.
Arguments freightcost {V} _.
Arguments totalsalesprice {V} _.
Arguments totalsalesquantity {V} _.
Arguments totalsalesdollars {V} _.
Arguments totalexcisetax {V} _.

(** [pd.read_sql(query, engine)]: SQL [NULL] becomes a missing value, an
    exact number becomes a float ([coerce_float]); the integer keys and
    [Volume] stay integers. *)
Definition nullable_float (x : option Z) : float64 :=
  from_option f64_of_Z NaN x.

Definition nullable_str (x : option string) : pyobj :=
  from_option PyStr PyNA x.

Definition read_sql_row (r : vendor_table_row) : DataFrame_row Z :=
  {| VendorNumber := vt_VendorNumber r;
     VendorName := nullable_str (vt_VendorName r);
     Brand := vt_Brand r;
     Description := nullable_str (vt_Description r);
     PurchasePrice := f64_of_Z (vt_PurchasePrice r);
     actualprice := f64_of_Z (vt_actualprice r);
     Volume := vt_Volume r;
     totalpurchasedollars := f64_of_Z (vt_totalpurchasedollars r);
     totalpurchasequantity := f64_of_Z (vt_totalpurchasequantity r);
     freightcost := nullable_float (vt_freightcost r);
     totalsalesprice := nullable_float (vt_totalsalesprice r);
     totalsalesquantity := nullable_float (vt_totalsalesquantity r);
     totalsalesdollars := nullable_float (vt_totalsalesdollars r);
     totalexcisetax := nullable_float (vt_totalexcisetax r) |}.

Definition read_sql (src : sources) : list (DataFrame_row Z) :=
  read_sql_row <$> vendor_table src.

(** Line 72: [df['Volume'] = df['Volume'].astype('float64')], on the
    integer column that [Volume] is here; the conversion of a text column,
    which raises on a text that is no number, is not part of this
    embedding. *)
Definition astype_float64 (r : DataFrame_row Z) : DataFrame_row float64 :=
  {| VendorNumber := VendorNumber r;
     VendorName := VendorName r;
     Brand := Brand r;
     Description := Description r;
     PurchasePrice := PurchasePrice r;
     actualprice := actualprice r;
     Volume := f64_of_Z (Volume r);
     totalpurchasedollars := totalpurchasedollars r;
     totalpurchasequantity := totalpurchasequantity r;
     freightcost := freightcost r;
     totalsalesprice := totalsalesprice r;
     totalsalesquantity := totalsalesquantity r;
     totalsalesdollars := totalsalesdollars r;
     totalexcisetax := totalexcisetax r |}.

(** Line 75: [df.fillna(0, inplace=True)], on every column. *)
Definition fillna_float (x : float64) : float64 :=
  match x with
  | S754_nan => zero
  | _ => x
  end.

Definition fillna_object (o : pyobj) : pyobj :=
  match o with
  | PyNA => PyInt 0
  | _ => o
  end.

Definition fillna (r : DataFrame_row float64) : DataFrame_row float64 :=
  {| VendorNumber := VendorNumber r;
     VendorName := fillna_object (VendorName r);
     Brand := Brand r;
     Description := fillna_object (Description r);
     PurchasePrice := fillna_float (PurchasePrice r);
     actualprice := fillna_float (actualprice r);
     Volume := fillna_float (Volume r);
     totalpurchasedollars := fillna_float (totalpurchasedollars r);
     totalpurchasequantity := fillna_float (totalpurchasequantity r);
     freightcost := fillna_float (freightcost r);
     totalsalesprice := fillna_float (totalsalesprice r);
     totalsalesquantity := fillna_float (totalsalesquantity r);
     totalsalesdollars := fillna_float (totalsalesdollars r);
     totalexcisetax := fillna_float (totalexcisetax r) |}.

(** Line 77: [df['VendorName'].str.strip()].

    Python's [str.strip()] removes the white space at both ends.  A string
    is here the sequence of its code points, all below 256; among them
    white space is tab, line feed, vertical tab, form feed, carriage
    return, the four separators 28 to 31, the space, the next-line control
    133 and the no-break space 160. *)
Definition is_space (c : ascii) : bool :=
  let n := Z.of_nat (nat_of_ascii c) in
  bool_decide (9 ≤ n ≤ 13 ∨ 28 ≤ n ≤ 32 ∨ n = 133 ∨ n = 160).

Fixpoint lstrip (s : string) : string :=
  match s with
  | String c s' => if is_space c then lstrip s' else s
  | EmptyString => EmptyString
  end.

Definition strip (s : string) : string :=
  String.rev (lstrip (String.rev (lstrip s))).

(** [VendorName] is a column of dtype [object].  The [.str] accessor checks
    the column first: the inferred type of its non-missing values has to be
    one of string, empty or mixed, so a column that holds integers only
    raises [AttributeError]. *)
Definition is_str (o : pyobj) : Prop :=
  match o with PyStr _ => True | _ => False end.

#[global] Instance is_str_dec o : Decision (is_str o).
Proof. destruct o; apply _. Defined.

Definition is_int (o : pyobj) : Prop :=
  match o with PyInt _ => True | _ => False end.

#[global] Instance is_int_dec o : Decision (is_int o).
Proof. destruct o; apply _. Defined.

Definition str_accessor_allowed (col : list pyobj) : bool :=
  bool_decide (Exists is_int col → Exists is_str col).

(** Element-wise, the accessor maps a string through the method, and
    anything that is not a string to a missing value. *)
Definition str_strip (o : pyobj) : pyobj :=
  match o with
  | PyStr s => PyStr (strip s)
  | _ => PyNA
  end.

Definition set_VendorName (name : pyobj) (r : DataFrame_row float64)
    : DataFrame_row float64 :=
  {| VendorNumber := VendorNumber r;
     VendorName := name;
     Brand := Brand r;
     Description := Description r;
     PurchasePrice := PurchasePrice r;
     actualprice := actualprice r;
     Volume := Volume r;
     totalpurchasedollars := totalpurchasedollars r;
     totalpurchasequantity := totalpurchasequantity r;
     freightcost := freightcost r;
     totalsalesprice := totalsalesprice r;
     totalsalesquantity := totalsalesquantity r;
     totalsalesdollars := totalsalesdollars r;
     totalexcisetax := totalexcisetax r |}.

(** Lines 81 to 84: the derived columns. *)
Record vendor_cleaned_row := {
  columns : DataFrame_row float64;
  GrossProfit : float64;
  ProfitMargin : float64;
  StockTurnover : float64;
  SalesToPurchaseRatio : float64
}.

Definition hundred : float64 := f64_of_Z 100.

Definition add_columns (r : DataFrame_row float64) : vendor_cleaned_row :=
  let gross := f64_sub (totalsalesdollars r) (totalpurchasedollars r) in
  {| columns := r;
     GrossProfit := gross;
     ProfitMargin := f64_mul (f64_div gross (totalsalesdollars r)) hundred;
     StockTurnover :=
       f64_div (totalsalesquantity r) (totalpurchasequantity r);
     SalesToPurchaseRatio :=
       f64_div (totalsalesdollars r) (totalpurchasedollars r) |}.

(** Lines 72 to 84 on the whole frame, column operation after column
    operation; [None] when line 77 raises. *)
Definition transform (df : list (DataFrame_row Z))
    : option (list vendor_cleaned_row) :=
  let filled := fillna <$> (astype_float64 <$> df) in
  if str_accessor_allowed (VendorName <$> filled)
  then Some ((λ r, add_columns (set_VendorName (str_strip (VendorName r)) r))
               <$> filled)
  else None.

(** ** The job *)

(** The database: the four source tables and the destination table, absent
    before the first run. *)
Record database := {
  db_sources : sources;
  vendor_cleaned : option (list vendor_cleaned_row)
}.

(** Line 86: [df.to_sql("vendor_cleaned", engine, if_exists="replace",
    index=False)] drops what the table held and stores the frame, a missing
    value as [NULL]; the destination is kept here as the frame that was
    written. *)
Definition to_sql (df : list vendor_cleaned_row) (db : database) : database :=
  {| db_sources := db_sources db; vendor_cleaned := Some df |}.

(** The script, [None] when it raises before line 86 (the database is then
    left as it was). *)
Definition job (db : database) : option database :=
  out ← transform (read_sql (db_sources db));
  Some (to_sql out db).

(** * Vocabulary of the properties *)

(** The group of one key, when the key occurs among the rows. *)
Definition group_of {R K : Type} `{EqDecision K}
    (key : R → K) (rows : list R) (k : K) : option (K * list R) :=
  if decide (k ∈ key <$> rows)
  then Some (k, filter (λ r, key r = k) rows)
  else None.

(** The grouping keys of the purchase summary. *)
Definition purchase_keys (src : sources) : list ps_key :=
  remove_dups
    (purchase_key <$> purchases_joined (purchases src) (purchase_prices src)).

(** The row of [vendor_table] that a grouping key stands for: its purchase
    group, the sales summary of its vendor and brand and the freight
    summary of its vendor, when there are any. *)
Definition vendor_table_row_of (src : sources) (k : ps_key)
    : vendor_table_row :=
  let ps :=
    Purchase_summary_of_group
      (k, filter (λ j, purchase_key j = k)
            (purchases_joined (purchases src) (purchase_prices src))) in
  vendor_table_select
    (ps,
     sales_summary_of_group
       <$> group_of sales_key (sales src) (ps_VendorNumber ps, ps_Brand ps),
     Freight_summary_of_group
       <$> group_of vi_VendorNumber (vendor_invoice src) (ps_VendorNumber ps)).

(** The five columns of a purchase row that the purchase summary groups
    by, and the purchase rows that agree with [p] on them. *)
Definition purchase_columns (p : purchases_row)
    : Z * option string * string * option string * Z :=
  (p_VendorNumber p, p_VendorName p, p_Brand p, p_Description p,
   p_PurchasePrice p).

Definition purchase_group (src : sources) (p : purchases_row)
    : list purchases_row :=
  filter (λ q, purchase_columns q = purchase_columns p) (purchases src).

(** How many rows of [purchase_prices] carry a brand, volume and price. *)
Definition price_matches (src : sources) (b : string) (volume price : Z)
    : nat :=
  length (filter (λ pp, pp_Brand pp = b ∧ pp_Volume pp = volume
                        ∧ pp_Price pp = price)
            (purchase_prices src)).

(** The purchase rows of a vendor and brand that pass the filter
    [PurchasePrice > 0]. *)
Definition valid_purchases (src : sources) (v : Z) (b : string)
    : list purchases_row :=
  filter (λ p, p_VendorNumber p = v ∧ p_Brand p = b ∧ 0 < p_PurchasePrice p)
    (purchases src).

(** Lines 72 to 84 on one row of a frame on which line 77 does not
    raise. *)
Definition clean_row (r : DataFrame_row Z) : vendor_cleaned_row :=
  let r := fillna (astype_float64 r) in
  add_columns (set_VendorName (str_strip (VendorName r)) r).

(** The row written for the group of a joined pair. *)
Definition written_row (src : sources)
    (j : purchases_row * purchase_prices_row) : vendor_cleaned_row :=
  clean_row (read_sql_row (vendor_table_row_of src (purchase_key j))).

(** Classes of binary64 values. *)
Definition f64_ltb : float64 → float64 → bool := SFltb.

Definition is_zero (x : float64) : Prop :=
  match x with S754_zero _ => True | _ => False end.

Definition is_inf_or_nan (x : float64) : Prop :=
  match x with S754_infinity _ | S754_nan => True | _ => False end.

(** The cells of a row of the frame, column by column. *)
Inductive cell :=
  | CInt (z : Z)
  | CStr (s : string)
  | CObject (o : pyobj)
  | CFloat (x : float64).

Definition cells (r : DataFrame_row float64) : list cell :=
  [ CInt (VendorNumber r); CObject (VendorName r); CStr (Brand r);
    CObject (Description r); CFloat (PurchasePrice r);
    CFloat (actualprice r); CFloat (Volume r);
    CFloat (totalpurchasedollars r); CFloat (totalpurchasequantity r);
    CFloat (freightcost r); CFloat (totalsalesprice r);
    CFloat (totalsalesquantity r); CFloat (totalsalesdollars r);
    CFloat (totalexcisetax r) ].

Definition missing (c : cell) : Prop :=
  match c with
  | CObject PyNA | CFloat S754_nan => True
  | _ => False
  end.

(** A missing cell replaced by 0, any other cell kept. *)
Definition filled (c : cell) : cell :=
  match c with
  | CObject PyNA => CObject (PyInt 0)
  | CFloat S754_nan => CFloat zero
  | _ => c
  end.

(** Two states of the source tables with the same rows, in whatever
    order the store returns them. *)
Definition same_rows (s1 s2 : sources) : Prop :=
  vendor_invoice s1 ≡ₚ vendor_invoice s2
  ∧ purchases s1 ≡ₚ purchases s2
  ∧ purchase_prices s1 ≡ₚ purchase_prices s2
  ∧ sales s1 ≡ₚ sales s2.

(** Two outcomes of the job that agree: both raise, or both write the same
    rows up to their order. *)
Definition same_outcome (o1 o2 : option database) : Prop :=
  match o1, o2 with
  | Some d1, Some d2 =>
      match vendor_cleaned d1, vendor_cleaned d2 with
      | Some t1, Some t2 => t1 ≡ₚ t2
      | _, _ => False
      end
  | None, None => True
  | _, _ => False
  end.

(** The freight of a vendor: the sum of [Freight] over its invoice rows. *)
Definition vendor_freight (src : sources) (v : Z) : Z :=
  SUM (vi_Freight
         <$> filter (λ i, vi_VendorNumber i = v) (vendor_invoice src)).

(** [r] is a row of the table that the job, run on [db], writes. *)
Definition persisted (db : database) (r : vendor_cleaned_row) : Prop :=
  ∃ db' out, job db = Some db' ∧ vendor_cleaned db' = Some out ∧ r ∈ out.

(** The sale rows of a vendor and brand. *)
Definition sales_of (src : sources) (v : Z) (b : string) : list sales_row :=
  filter (λ s, sales_key s = (v, b)) (sales src).

(** The seven grouping columns of a row of [vendor_table]. *)
Definition vt_key (vt : vendor_table_row) : ps_key :=
  (vt_VendorNumber vt, vt_VendorName vt, vt_Brand vt, vt_Description vt,
   vt_PurchasePrice vt, vt_Volume vt, vt_actualprice vt).

(** How many rows of [purchase_prices] carry a brand. *)
Definition brand_matches (src : sources) (b : string) : nat :=
  length (filter (λ pp, b = pp_Brand pp) (purchase_prices src)).

(** The first and the last character of a string. *)
Definition first_char (s : string) : option ascii :=
  match s with
  | String c _ => Some c
  | EmptyString => None
  end.

Definition last_char (s : string) : option ascii :=
  first_char (String.rev s).

(** [lstrip] on the list of the characters. *)
Fixpoint drop_spaces (l : list ascii) : list ascii :=
  match l with
  | c :: l' => if is_space c then drop_spaces l' else l
  | [] => []
  end.

(** A binary64 value that is a number: a zero or a finite value. *)
Definition is_finite (x : float64) : Prop :=
  match x with S754_zero _ | S754_finite _ _ _ => True | _ => False end.

Definition pos_infinity : float64 := S754_infinity false.
Definition neg_zero : float64 := S754_zero true.

(** [strip] on the list of the characters. *)
Definition trimmed (l : list ascii) : list ascii :=
  reverse (drop_spaces (reverse (drop_spaces l))).

(** * Concrete databases *)

(** The scenario of section 8 of the specification. *)
Definition acme_gin : purchases_row :=
  {| p_VendorNumber := 1; p_VendorName := Some "ACME "%string;
     p_Brand := "A"; p_Description := Some "Gin"%string;
     p_PurchasePrice := 5; p_Quantity := 10; p_Dollars := 100 |}.

Definition brand_A : purchase_prices_row :=
  {| pp_Brand := "A"; pp_Volume := 750; pp_Price := 12 |}.

Definition scenario : sources :=
  {| vendor_invoice := [ {| vi_VendorNumber := 1; vi_Freight := 5 |} ];
     purchases := [ acme_gin ];
     purchase_prices := [ brand_A ];
     sales :=
       [ {| s_VendorNo := 1; s_Brand := "A"; s_SalesQuantity := 8;
            s_SalesPrice := 12; s_SalesDollars := 96; s_ExciseTax := 1 |} ] |}.

Definition scenario_db : database :=
  {| db_sources := scenario; vendor_cleaned := None |}.

(** The same purchase without sales and invoices. *)
Definition no_sales_db : database :=
  {| db_sources :=
       {| vendor_invoice := []; purchases := [ acme_gin ];
          purchase_prices := [ brand_A ]; sales := [] |};
     vendor_cleaned := None |}.

(** The same vendor and brand bought at two prices. *)
Definition acme_gin_at_6 : purchases_row :=
  {| p_VendorNumber := 1; p_VendorName := Some "ACME "%string;
     p_Brand := "A"; p_Description := Some "Gin"%string;
     p_PurchasePrice := 6; p_Quantity := 5; p_Dollars := 50 |}.

Definition two_price_db : database :=
  {| db_sources :=
       {| vendor_invoice := []; purchases := [ acme_gin; acme_gin_at_6 ];
          purchase_prices := [ brand_A ]; sales := [] |};
     vendor_cleaned := None |}.

(** A purchase of a brand that [purchase_prices] does not list. *)
Definition missing_brand_db : database :=
  {| db_sources :=
       {| vendor_invoice := []; purchases := [ acme_gin ];
          purchase_prices := []; sales := [] |};
     vendor_cleaned := None |}.

(** A brand listed twice in [purchase_prices]. *)
Definition duplicate_brand_db : database :=
  {| db_sources :=
       {| vendor_invoice := []; purchases := [ acme_gin ];
          purchase_prices := [ brand_A; brand_A ]; sales := [] |};
     vendor_cleaned := None |}.

(** Free stock next to a paid purchase. *)
Definition free_gin : purchases_row :=
  {| p_VendorNumber := 3; p_VendorName := Some "Gratis"%string;
     p_Brand := "A"; p_Description := Some "Gin"%string;
     p_PurchasePrice := 0; p_Quantity := 2; p_Dollars := 0 |}.

Definition free_stock_db : database :=
  {| db_sources :=
       {| vendor_invoice := []; purchases := [ free_gin; acme_gin ];
          purchase_prices := [ brand_A ]; sales := [] |};
     vendor_cleaned := None |}.

(** A purchase without [VendorName] next to one that has a name, and the
    same purchase alone. *)
Definition anonymous_gin : purchases_row :=
  {| p_VendorNumber := 2; p_VendorName := None;
     p_Brand := "A"; p_Description := None;
     p_PurchasePrice := 4; p_Quantity := 3; p_Dollars := 12 |}.

Definition null_name_db : database :=
  {| db_sources :=
       {| vendor_invoice := []; purchases := [ anonymous_gin; acme_gin ];
          purchase_prices := [ brand_A ]; sales := [] |};
     vendor_cleaned := None |}.

(** The same source rows in another order, with a destination table left
    by an earlier run. *)
Definition null_name_swapped_db : database :=
  {| db_sources :=
       {| vendor_invoice := []; purchases := [ acme_gin; anonymous_gin ];
          purchase_prices := [ brand_A ]; sales := [] |};
     vendor_cleaned := Some [] |}.

(** A purchase booked with negative dollars, and one with zero dollars and
    zero quantity, neither with sales. *)
Definition refunded_gin : purchases_row :=
  {| p_VendorNumber := 4; p_VendorName := Some "Refund"%string;
     p_Brand := "A"; p_Description := None;
     p_PurchasePrice := 5; p_Quantity := 1; p_Dollars := -5 |}.

Definition void_gin : purchases_row :=
  {| p_VendorNumber := 5; p_VendorName := Some "Void"%string;
     p_Brand := "A"; p_Description := Some "Gin"%string;
     p_PurchasePrice := 5; p_Quantity := 0; p_Dollars := 0 |}.

Definition odd_totals_db : database :=
  {| db_sources :=
       {| vendor_invoice := []; purchases := [ refunded_gin; void_gin ];
          purchase_prices := [ brand_A ]; sales := [] |};
     vendor_cleaned := None |}.

(** A purchase sold for what it cost. *)
Definition break_even_db : database :=
  {| db_sources :=
       {| vendor_invoice := []; purchases := [ acme_gin ];
          purchase_prices := [ brand_A ];
          sales :=
            [ {| s_VendorNo := 1; s_Brand := "A"; s_SalesQuantity := 10;
                 s_SalesPrice := 10; s_SalesDollars := 100;
                 s_ExciseTax := 0 |} ] |};
     vendor_cleaned := None |}.

(** Two purchases of one group, their brand listed at two volumes, next to
    another vendor's brand that is listed twice. *)
Definition acme_gin_more : purchases_row :=
  {| p_VendorNumber := 1; p_VendorName := Some "ACME "%string;
     p_Brand := "A"; p_Description := Some "Gin"%string;
     p_PurchasePrice := 5; p_Quantity := 4; p_Dollars := 40 |}.

Definition other_rum : purchases_row :=
  {| p_VendorNumber := 2; p_VendorName := Some "Other"%string;
     p_Brand := "B"; p_Description := Some "Rum"%string;
     p_PurchasePrice := 3; p_Quantity := 1; p_Dollars := 3 |}.

Definition brand_A_litre : purchase_prices_row :=
  {| pp_Brand := "A"; pp_Volume := 1000; pp_Price := 15 |}.

Definition brand_B : purchase_prices_row :=
  {| pp_Brand := "B"; pp_Volume := 700; pp_Price := 9 |}.

Definition two_volume_db : database :=
  {| db_sources :=
       {| vendor_invoice := [];
          purchases := [ acme_gin; other_rum; acme_gin_more ];
          purchase_prices := [ brand_A; brand_B; brand_A_litre; brand_B ];
          sales := [] |};
     vendor_cleaned := None |}.

(** A vendor with two invoices and two written rows, next to another
    vendor's invoice. *)
Definition two_invoice_db : database :=
  {| db_sources :=
       {| vendor_invoice :=
            [ {| vi_VendorNumber := 1; vi_Freight := 5 |};
              {| vi_VendorNumber := 2; vi_Freight := 9 |};
              {| vi_VendorNumber := 1; vi_Freight := 7 |} ];
          purchases := [ acme_gin; acme_gin_at_6 ];
          purchase_prices := [ brand_A ]; sales := [] |};
     vendor_cleaned := None |}.

Definition all_null_names_db : database :=
  {| db_sources :=
       {| vendor_invoice := []; purchases := [ anonymous_gin ];
          purchase_prices := [ brand_A ]; sales := [] |};
     vendor_cleaned := None |}.

(** * Properties *)

(** Runs of the job on a concrete database, by evaluation. *)
Ltac run_job :=
  eexists _, _; split; [vm_compute; reflexivity|];
  split; [reflexivity|]; vm_compute; repeat constructor.

Ltac job_runs_here := eexists; vm_compute; reflexivity.

(** ** Binary64 facts *)

Section rounding.
Variables prec emax : Z.

Lemma shr_1_nonneg mrs : 0 ≤ shr_m mrs → 0 ≤ shr_m (shr_1 mrs).
Proof.
  destruct mrs as [m r s]; simpl.
  destruct m as [|[p|p|]|[p|p|]]; simpl; lia.
Qed.

Lemma iter_pos_invariant {A} (f : A → A) (P : A → Prop) :
  (∀ x, P x → P (f x)) → ∀ n x, P x → P (SpecFloat.iter_pos f n x).
Proof.
  intros Hf n. induction n as [n IH|n IH|]; intros x Hx; simpl; auto.
Qed.

Lemma shr_nonneg mrs e n : 0 ≤ shr_m mrs → 0 ≤ shr_m (shr mrs e n).1.
Proof.
  intros H. destruct n as [|p|p]; simpl; auto.
  apply (iter_pos_invariant shr_1 (λ x, 0 ≤ shr_m x)); auto using shr_1_nonneg.
Qed.

Lemma shr_fexp_nonneg m e l :
  0 ≤ m → 0 ≤ shr_m (shr_fexp prec emax m e l).1.
Proof.
  intros H. unfold shr_fexp. apply shr_nonneg.
  destruct l as [|[]]; simpl; lia.
Qed.

Lemma round_nearest_even_nonneg m l : 0 ≤ m → 0 ≤ round_nearest_even m l.
Proof.
  intros H. destruct l as [|[]]; simpl; try lia.
  destruct (Z.even m); lia.
Qed.

Lemma binary_round_aux_not_nan sx mx ex lx :
  0 ≤ mx → binary_round_aux prec emax sx mx ex lx ≠ S754_nan.
Proof.
  intros H. unfold binary_round_aux.
  pose proof (shr_fexp_nonneg mx ex lx H) as H1.
  destruct (shr_fexp prec emax mx ex lx) as [mrs1 e1]; simpl in H1.
  pose proof (shr_fexp_nonneg _ e1 loc_Exact
                (round_nearest_even_nonneg _ (loc_of_shr_record mrs1) H1))
    as H2.
  destruct (shr_fexp prec emax _ e1 loc_Exact) as [mrs2 e2]; simpl in H2.
  destruct (shr_m mrs2) as [|m|m]; try lia; try discriminate.
  destruct (Z.leb e2 (emax - prec)); discriminate.
Qed.

Lemma binary_normalize_not_nan m e sz :
  binary_normalize prec emax m e sz ≠ S754_nan.
Proof.
  destruct m as [|m|m]; simpl; try discriminate;
    unfold binary_round;
    destruct (shl_align _ _ _) as [mz ez];
    apply binary_round_aux_not_nan; lia.
Qed.
End rounding.

Lemma f64_of_Z_not_nan z : f64_of_Z z ≠ NaN.
Proof. apply binary_normalize_not_nan. Qed.

Lemma fillna_float_of_Z z : fillna_float (f64_of_Z z) = f64_of_Z z.
Proof.
  pose proof (f64_of_Z_not_nan z) as H. unfold NaN in H.
  destruct (f64_of_Z z); simpl; congruence.
Qed.

Lemma fillna_nullable_float x :
  fillna_float (nullable_float x) = f64_of_Z (default 0 x).
Proof. destruct x as [z|]; simpl; [apply fillna_float_of_Z | reflexivity]. Qed.

(** ** Relational operators *)

Section filters.
Context {A B K : Type} `{EqDecision K}.

Lemma filter_none (P : A → Prop) `{∀ x, Decision (P x)} (l : list A) :
  (∀ x, x ∈ l → ¬ P x) → filter P l = [].
Proof.
  intros HP. destruct (filter P l) as [|x l'] eqn:E; [done|].
  assert (x ∈ filter P l) as Hx by (rewrite E; left).
  apply list_elem_of_filter in Hx as [HPx Hx]. destruct (HP x Hx HPx).
Qed.

Lemma filter_fmap (f : A → B) (P : B → Prop) `{∀ y, Decision (P y)}
    (l : list A) :
  filter P (f <$> l) = f <$> filter (λ x, P (f x)) l.
Proof.
  induction l as [|x l IH]; [done|].
  rewrite fmap_cons, !filter_cons, IH. by destruct (decide (P (f x))).
Qed.

Lemma filter_eq_NoDup (l : list K) k :
  NoDup l → filter (λ x, k = x) l = if decide (k ∈ l) then [k] else [].
Proof.
  induction 1 as [|x l Hx Hl IH]; [done|].
  rewrite filter_cons, IH. destruct (decide (k = x)) as [->|Hne].
  - rewrite decide_False by done. by rewrite decide_True by left.
  - destruct (decide (k ∈ l)) as [Hk|Hk].
    + by rewrite decide_True by (by right).
    + rewrite decide_False; [done|]. by intros [?|?]%elem_of_cons.
Qed.

Lemma filter_ext_elem_of (P Q : A → Prop) `{∀ x, Decision (P x)}
    `{∀ x, Decision (Q x)} (l : list A) :
  (∀ x, x ∈ l → P x ↔ Q x) → filter P l = filter Q l.
Proof.
  induction l as [|x l IH]; intros HPQ; [done|].
  rewrite !filter_cons, IH by (intros; apply HPQ; by right).
  apply decide_ext, HPQ. left.
Qed.

(** A unique key selects at most one row. *)
Lemma NoDup_key_filter_length (key : A → K) (P : A → Prop)
    `{∀ x, Decision (P x)} k (l : list A) :
  NoDup (key <$> l) → (∀ x, P x → key x = k) →
  (length (filter P l) ≤ 1)%nat.
Proof.
  intros Hl HP. induction l as [|x l IH]; [simpl; lia|].
  rewrite fmap_cons in Hl. apply NoDup_cons in Hl as [Hx Hl].
  rewrite filter_cons. destruct (decide (P x)) as [HPx|_]; [|by apply IH].
  rewrite filter_none; [simpl; lia|].
  intros y Hy HPy. apply Hx. rewrite (HP x HPx), <- (HP y HPy).
  by apply list_elem_of_fmap_2.
Qed.
End filters.

Section relational.
Context {A B K : Type} `{EqDecision K}.

Lemma filter_group_by (key : A → K) rows k :
  filter (λ g, k = g.1) (group_by key rows)
  = option_list (group_of key rows k).
Proof.
  unfold group_by, group_of. rewrite filter_fmap. simpl.
  rewrite filter_eq_NoDup by apply NoDup_remove_dups.
  destruct (decide (k ∈ key <$> rows)) as [Hk|Hk].
  - by rewrite decide_True by (by apply elem_of_remove_dups).
  - by rewrite decide_False by (by rewrite elem_of_remove_dups).
Qed.

Context (on : A * B → Prop) `{∀ j, Decision (on j)}.

Lemma elem_of_inner_join l r j :
  j ∈ inner_join on l r ↔ j.1 ∈ l ∧ j.2 ∈ r ∧ on j.
Proof.
  destruct j as [a b]. unfold inner_join. rewrite list_elem_of_bind. split.
  - intros (a' & Hab & Ha).
    apply list_elem_of_fmap in Hab as (b' & [= -> ->] & Hb).
    apply list_elem_of_filter in Hb. tauto.
  - intros (Ha & Hb & Hon). exists a. split; [|done].
    apply list_elem_of_fmap. exists b. split; [done|].
    apply list_elem_of_filter. auto.
Qed.

(** A left join whose right side holds at most one partner per row is a
    look-up. *)
Lemma left_join_lookup (m : A → option B) l r :
  (∀ a, a ∈ l → filter (λ b, on (a, b)) r = option_list (m a)) →
  left_join on l r = (λ a, (a, m a)) <$> l.
Proof.
  unfold left_join. induction l as [|a l IH]; intros Hm; [done|].
  rewrite bind_cons, fmap_cons, IH by (intros; apply Hm; by right).
  rewrite (Hm a) by left. by destruct (m a).
Qed.
End relational.

(** ** The query *)

Lemma filter_sales_summary sl v b :
  filter (λ ss, v = ss_VendorNo ss ∧ b = ss_Brand ss) (sales_summary sl)
  = option_list (sales_summary_of_group <$> group_of sales_key sl (v, b)).
Proof.
  unfold sales_summary. rewrite filter_fmap. simpl.
  rewrite (list_filter_iff _ (λ g, (v, b) = g.1)).
  - rewrite filter_group_by. by destruct (group_of _ _ _).
  - intros [[v' b'] g]. simpl. split; [intros [-> ->]|intros [= -> ->]]; done.
Qed.

Lemma filter_Freight_summary vi v :
  filter (λ cs, v = cs_VendorNumber cs) (Freight_summary vi)
  = option_list (Freight_summary_of_group <$> group_of vi_VendorNumber vi v).
Proof.
  unfold Freight_summary. rewrite filter_fmap. simpl.
  rewrite filter_group_by. by destruct (group_of _ _ _).
Qed.

Lemma vendor_table_unordered_eq src :
  vendor_table_unordered src = vendor_table_row_of src <$> purchase_keys src.
Proof.
  unfold vendor_table_unordered.
  rewrite (left_join_lookup _
             (λ ps, sales_summary_of_group
                      <$> group_of sales_key (sales src)
                            (ps_VendorNumber ps, ps_Brand ps)))
    by (intros ps _; exact (filter_sales_summary _ _ _)).
  rewrite (left_join_lookup _
             (λ j, Freight_summary_of_group
                     <$> group_of vi_VendorNumber (vendor_invoice src)
                           (ps_VendorNumber j.1)))
    by (intros j _; exact (filter_Freight_summary _ _)).
  unfold Purchase_summary, group_by, purchase_keys.
  rewrite <- !list_fmap_compose. done.
Qed.

Lemma vendor_table_Permutation src :
  vendor_table src ≡ₚ vendor_table_row_of src <$> purchase_keys src.
Proof.
  unfold vendor_table.
  by rewrite merge_sort_Permutation, vendor_table_unordered_eq.
Qed.

(** The rows of [vendor_table] come by descending [totalpurchasedollars],
    one per grouping key. *)
Lemma vendor_table_ordered src :
  StronglySorted purchase_dollars_desc (vendor_table src).
Proof.
  apply StronglySorted_merge_sort.
  - intros r1 r2 r3. unfold purchase_dollars_desc. lia.
  - intros r1 r2. unfold purchase_dollars_desc. lia.
Qed.

Lemma purchase_keys_NoDup src : NoDup (purchase_keys src).
Proof. apply NoDup_remove_dups. Qed.

Lemma elem_of_vendor_table src vt :
  vt ∈ vendor_table src
  ↔ ∃ k, k ∈ purchase_keys src ∧ vt = vendor_table_row_of src k.
Proof.
  rewrite vendor_table_Permutation, list_elem_of_fmap. naive_solver.
Qed.

Lemma elem_of_purchase_keys src k :
  k ∈ purchase_keys src
  ↔ ∃ j, k = purchase_key j
         ∧ j.1 ∈ purchases src ∧ j.2 ∈ purchase_prices src
         ∧ p_Brand j.1 = pp_Brand j.2 ∧ 0 < p_PurchasePrice j.1.
Proof.
  unfold purchase_keys, purchases_joined.
  rewrite elem_of_remove_dups, list_elem_of_fmap.
  setoid_rewrite list_elem_of_filter.
  setoid_rewrite (elem_of_inner_join (λ j, p_Brand j.1 = pp_Brand j.2)).
  naive_solver.
Qed.

Lemma group_of_None {R K : Type} `{EqDecision K} (key : R → K) rows k :
  group_of key rows k = None → filter (λ r, key r = k) rows = [].
Proof.
  unfold group_of. case_decide as Hk; [done|]. intros _.
  apply filter_none. intros r Hr <-. apply Hk.
  by apply list_elem_of_fmap_2.
Qed.

Lemma group_of_Some {R K : Type} `{EqDecision K} (key : R → K) rows k g :
  group_of key rows k = Some g → g = (k, filter (λ r, key r = k) rows).
Proof. unfold group_of. case_decide; naive_solver. Qed.

(** The freight column of a row of [vendor_table], null or not, is the
    freight of the row's vendor. *)
Lemma vendor_table_row_freight src k :
  default 0 (vt_freightcost (vendor_table_row_of src k))
  = vendor_freight src (vt_VendorNumber (vendor_table_row_of src k)).
Proof.
  unfold vendor_table_row_of, vendor_freight. simpl.
  destruct (group_of vi_VendorNumber _ _) as [g|] eqn:E; simpl.
  - by apply group_of_Some in E as ->.
  - by apply group_of_None in E as ->.
Qed.

Lemma vendor_table_row_no_sales src k :
  let vt := vendor_table_row_of src k in
  (∀ s, s ∈ sales src →
        ¬ (s_VendorNo s = vt_VendorNumber vt ∧ s_Brand s = vt_Brand vt)) →
  vt_totalsalesquantity vt = None ∧ vt_totalsalesprice vt = None
  ∧ vt_totalsalesdollars vt = None ∧ vt_totalexcisetax vt = None.
Proof.
  unfold vendor_table_row_of. simpl. intros Hs.
  destruct (group_of sales_key _ _) as [g|] eqn:E; [|done].
  unfold group_of in E. case_decide as Hk; [|done].
  apply list_elem_of_fmap in Hk as (s & [= Hv Hb] & Hin).
  destruct (Hs s Hin). done.
Qed.

(** ** The frame and the job *)

Lemma transform_Some df out :
  transform df = Some out
  ↔ str_accessor_allowed (VendorName <$> (fillna <$> (astype_float64 <$> df)))
    ∧ out = clean_row <$> df.
Proof.
  unfold transform. rewrite <- !list_fmap_compose.
  destruct (str_accessor_allowed _); naive_solver.
Qed.

Lemma job_Some db db' :
  job db = Some db'
  ↔ ∃ out, transform (read_sql (db_sources db)) = Some out
           ∧ db' = to_sql out db.
Proof.
  unfold job. destruct (transform _) as [out|]; simpl; naive_solver.
Qed.

Lemma persisted_inv db r :
  persisted db r →
  ∃ k, k ∈ purchase_keys (db_sources db)
       ∧ r = clean_row (read_sql_row (vendor_table_row_of (db_sources db) k)).
Proof.
  intros (db' & out & Hjob & Hout & Hr).
  apply job_Some in Hjob as (out' & Ht & ->). simpl in Hout.
  injection Hout as ->. apply transform_Some in Ht as [_ ->].
  apply list_elem_of_fmap in Hr as (df & -> & Hdf).
  apply list_elem_of_fmap in Hdf as (vt & -> & Hvt).
  apply elem_of_vendor_table in Hvt as (k & Hk & ->). eauto.
Qed.

(** The columns of a cleaned row, from the row of [vendor_table] it was
    read from. *)
Lemma cleaned_VendorNumber vt :
  VendorNumber (columns (clean_row (read_sql_row vt))) = vt_VendorNumber vt.
Proof. done. Qed.

Lemma cleaned_Brand vt :
  Brand (columns (clean_row (read_sql_row vt))) = vt_Brand vt.
Proof. done. Qed.

Lemma cleaned_VendorName vt :
  VendorName (columns (clean_row (read_sql_row vt)))
  = str_strip (fillna_object (nullable_str (vt_VendorName vt))).
Proof. done. Qed.

Lemma cleaned_totalpurchasedollars vt :
  totalpurchasedollars (columns (clean_row (read_sql_row vt)))
  = f64_of_Z (vt_totalpurchasedollars vt).
Proof. apply fillna_float_of_Z. Qed.

Lemma cleaned_totalpurchasequantity vt :
  totalpurchasequantity (columns (clean_row (read_sql_row vt)))
  = f64_of_Z (vt_totalpurchasequantity vt).
Proof. apply fillna_float_of_Z. Qed.

Lemma cleaned_freightcost vt :
  freightcost (columns (clean_row (read_sql_row vt)))
  = f64_of_Z (default 0 (vt_freightcost vt)).
Proof. apply fillna_nullable_float. Qed.

Lemma cleaned_totalsalesprice vt :
  totalsalesprice (columns (clean_row (read_sql_row vt)))
  = f64_of_Z (default 0 (vt_totalsalesprice vt)).
Proof. apply fillna_nullable_float. Qed.

Lemma cleaned_totalsalesquantity vt :
  totalsalesquantity (columns (clean_row (read_sql_row vt)))
  = f64_of_Z (default 0 (vt_totalsalesquantity vt)).
Proof. apply fillna_nullable_float. Qed.

Lemma cleaned_totalsalesdollars vt :
  totalsalesdollars (columns (clean_row (read_sql_row vt)))
  = f64_of_Z (default 0 (vt_totalsalesdollars vt)).
Proof. apply fillna_nullable_float. Qed.

Lemma cleaned_totalexcisetax vt :
  totalexcisetax (columns (clean_row (read_sql_row vt)))
  = f64_of_Z (default 0 (vt_totalexcisetax vt)).
Proof. apply fillna_nullable_float. Qed.

(** ** Freight *)

Lemma persisted_freightcost db r :
  persisted db r →
  freightcost (columns r)
  = f64_of_Z (vendor_freight (db_sources db) (VendorNumber (columns r))).
Proof.
  intros (k & Hk & ->)%persisted_inv.
  by rewrite cleaned_freightcost, cleaned_VendorNumber,
    vendor_table_row_freight.
Qed.

(** C3: all the rows that the job writes for one vendor carry the same
    [freightcost], and it is the sum of [Freight] over the rows of
    [vendor_invoice] with that [VendorNumber] (read as a float). *)
Theorem freight_broadcast db v r1 r2 :
  persisted db r1 → persisted db r2 →
  VendorNumber (columns r1) = v → VendorNumber (columns r2) = v →
  freightcost (columns r1) = freightcost (columns r2)
  ∧ freightcost (columns r1) = f64_of_Z (vendor_freight (db_sources db) v).
Proof.
  intros H1 H2 <- Hv.
  rewrite (persisted_freightcost db r1 H1), (persisted_freightcost db r2 H2).
  by rewrite Hv.
Qed.

Lemma persisted_no_sales db r :
  persisted db r →
  (∀ s, s ∈ sales (db_sources db) →
        ¬ (s_VendorNo s = VendorNumber (columns r)
           ∧ s_Brand s = Brand (columns r))) →
  totalsalesquantity (columns r) = zero
  ∧ totalsalesprice (columns r) = zero
  ∧ totalsalesdollars (columns r) = zero
  ∧ totalexcisetax (columns r) = zero.
Proof.
  intros (k & Hk & ->)%persisted_inv.
  rewrite cleaned_VendorNumber, cleaned_Brand. intros Hs.
  rewrite cleaned_totalsalesquantity, cleaned_totalsalesprice,
    cleaned_totalsalesdollars, cleaned_totalexcisetax.
  pose proof (vendor_table_row_no_sales _ k Hs) as (-> & -> & -> & ->).
  done.
Qed.

(** C4: a row written for a vendor and brand without sale rows has the four
    sales aggregates equal to 0, and a row written for a vendor without
    invoice rows has [freightcost] equal to 0; none of them is missing. *)
Theorem missing_aggregates_are_zero db r :
  persisted db r →
  ((∀ s, s ∈ sales (db_sources db) →
         ¬ (s_VendorNo s = VendorNumber (columns r)
            ∧ s_Brand s = Brand (columns r))) →
   totalsalesquantity (columns r) = zero
   ∧ totalsalesprice (columns r) = zero
   ∧ totalsalesdollars (columns r) = zero
   ∧ totalexcisetax (columns r) = zero)
  ∧ ((∀ i, i ∈ vendor_invoice (db_sources db) →
           vi_VendorNumber i ≠ VendorNumber (columns r)) →
     freightcost (columns r) = zero).
Proof.
  intros Hr. split.
  - by apply persisted_no_sales.
  - intros Hi. rewrite (persisted_freightcost db r Hr).
    unfold vendor_freight. rewrite filter_none; [done|].
    intros i Hin Hv. by apply (Hi i).
Qed.

(** ** Purchases *)

(** Every written row comes from a purchase row that passes the filter and
    from a row of [purchase_prices] of the same brand. *)
Lemma persisted_purchase db r :
  persisted db r →
  ∃ p pp,
    p ∈ purchases (db_sources db) ∧ pp ∈ purchase_prices (db_sources db)
    ∧ p_Brand p = pp_Brand pp ∧ 0 < p_PurchasePrice p
    ∧ r = clean_row (read_sql_row
                       (vendor_table_row_of (db_sources db)
                          (purchase_key (p, pp)))).
Proof.
  intros (k & Hk & ->)%persisted_inv.
  apply elem_of_purchase_keys in Hk as ([p pp] & -> & Hp & Hpp & Hb & Hprice).
  exists p, pp. done.
Qed.

(** C5: when all the purchase rows of a vendor and brand have a
    [PurchasePrice] of 0 or less, the job writes no row for that vendor and
    brand. *)
Theorem filter_exclusion db v b r :
  (∀ p, p ∈ purchases (db_sources db) →
        p_VendorNumber p = v → p_Brand p = b → p_PurchasePrice p ≤ 0) →
  persisted db r →
  ¬ (VendorNumber (columns r) = v ∧ Brand (columns r) = b).
Proof.
  intros Hall (p & pp & Hp & _ & _ & Hprice & ->)%persisted_purchase [Hv Hb].
  rewrite cleaned_VendorNumber in Hv. rewrite cleaned_Brand in Hb.
  simpl in Hv, Hb. specialize (Hall p Hp Hv Hb). lia.
Qed.

Lemma SUM_app l1 l2 : SUM (l1 ++ l2) = SUM l1 + SUM l2.
Proof. induction l1 as [|x l1 IH]; simpl; lia. Qed.

Lemma SUM_const {A} (c : Z) (l : list A) :
  SUM ((λ _, c) <$> l) = Z.of_nat (length l) * c.
Proof. induction l as [|x l IH]; [done|]. cbn [fmap list_fmap SUM foldr length]. fold (SUM ((λ _, c) <$> l)). lia. Qed.

Lemma purchases_joined_cons p P PP :
  purchases_joined (p :: P) PP
  = (if decide (0 < p_PurchasePrice p)
     then (λ pp, (p, pp)) <$> filter (λ pp, p_Brand p = pp_Brand pp) PP
     else [])
    ++ purchases_joined P PP.
Proof.
  unfold purchases_joined, inner_join.
  rewrite bind_cons, filter_app. f_equal.
  rewrite filter_fmap. simpl. case_decide as Hp.
  - f_equal. induction (filter _ PP) as [|x l IH]; [done|].
    by rewrite filter_cons_True, IH.
  - rewrite filter_none; [done|]. auto.
Qed.

(** The sum of a purchase column over one group of the join: every
    purchase row of the group counts once per matching reference row. *)
Lemma purchase_group_sum (f : purchases_row → Z) P PP vn name b descr price
    volume actual :
  SUM ((λ j, f j.1)
         <$> filter (λ j, purchase_key j
                          = (vn, name, b, descr, price, volume, actual))
               (purchases_joined P PP))
  = Z.of_nat (length (filter (λ pp, pp_Brand pp = b ∧ pp_Volume pp = volume
                                    ∧ pp_Price pp = actual) PP))
    * SUM (f <$> filter (λ p, purchase_columns p = (vn, name, b, descr, price)
                              ∧ 0 < p_PurchasePrice p) P).
Proof.
  induction P as [|p P IH]; [simpl; lia|].
  rewrite purchases_joined_cons, filter_app, fmap_app, SUM_app, IH.
  clear IH. rewrite (filter_cons _ p P).
  destruct (decide (0 < p_PurchasePrice p)) as [Hp|Hp].
  - rewrite filter_fmap, <- list_fmap_compose, list_filter_filter.
    cbn [compose fst]. rewrite (SUM_const (f p)).
    destruct (decide (purchase_columns p = (vn, name, b, descr, price)))
      as [Hc|Hc].
    + rewrite decide_True by done.
      rewrite (list_filter_iff _ (λ pp, pp_Brand pp = b ∧ pp_Volume pp = volume
                                        ∧ pp_Price pp = actual)).
      * rewrite fmap_cons. cbn [SUM foldr]. fold (SUM (f <$> filter (λ p, purchase_columns p = (vn, name, b, descr, price) ∧ 0 < p_PurchasePrice p) P)). lia.
      * intros pp. unfold purchase_key, purchase_columns in *. simpl.
        injection Hc as <- <- <- <- <-. naive_solver.
    + rewrite decide_False by tauto.
      rewrite filter_none; [simpl; lia|].
      intros pp _ [Hk _]. apply Hc.
      unfold purchase_key, purchase_columns in *. simpl in Hk. congruence.
  - rewrite decide_False by tauto. simpl. lia.
Qed.

Lemma purchase_group_filter src p :
  0 < p_PurchasePrice p →
  filter (λ q, purchase_columns q = purchase_columns p ∧ 0 < p_PurchasePrice q)
    (purchases src)
  = purchase_group src p.
Proof.
  intros Hp. apply list_filter_iff. intros q. split; [tauto|].
  intros Hq. split; [done|].
  unfold purchase_columns in Hq. injection Hq as _ _ _ _ ->. done.
Qed.

(** The purchase aggregates of the row written for a joined pair. *)
Lemma written_row_purchases src p pp :
  p_Brand p = pp_Brand pp → 0 < p_PurchasePrice p →
  let n := Z.of_nat (price_matches src (pp_Brand pp) (pp_Volume pp)
                       (pp_Price pp)) in
  totalpurchasequantity (columns (written_row src (p, pp)))
  = f64_of_Z (n * SUM (p_Quantity <$> purchase_group src p))
  ∧ totalpurchasedollars (columns (written_row src (p, pp)))
    = f64_of_Z (n * SUM (p_Dollars <$> purchase_group src p)).
Proof.
  intros Hb Hp n. unfold written_row.
  rewrite cleaned_totalpurchasequantity, cleaned_totalpurchasedollars.
  unfold vendor_table_row_of, purchase_key.
  cbn [vendor_table_select Purchase_summary_of_group fst snd
       vt_totalpurchasequantity vt_totalpurchasedollars
       ps_totalpurchasequantity ps_totalpurchasedollars].
  rewrite (purchase_group_sum p_Quantity), (purchase_group_sum p_Dollars).
  fold (purchase_columns p). rewrite (purchase_group_filter src p Hp).
  rewrite Hb. done.
Qed.

Lemma elem_of_purchase_group src p :
  p ∈ purchases src → p ∈ purchase_group src p.
Proof. intros Hp. by apply list_elem_of_filter. Qed.

Lemma price_matches_pos src pp :
  pp ∈ purchase_prices src →
  (1 ≤ price_matches src (pp_Brand pp) (pp_Volume pp) (pp_Price pp))%nat.
Proof.
  intros Hpp. unfold price_matches.
  assert (pp ∈ filter (λ q, pp_Brand q = pp_Brand pp
                            ∧ pp_Volume q = pp_Volume pp
                            ∧ pp_Price q = pp_Price pp) (purchase_prices src))
    as Hin by (by apply list_elem_of_filter).
  destruct (filter _ _); [by apply elem_of_nil in Hin|simpl; lia].
Qed.

(** When the job runs, it writes the row of every joined pair. *)
Lemma persisted_written db p pp :
  is_Some (job db) →
  p ∈ purchases (db_sources db) → pp ∈ purchase_prices (db_sources db) →
  p_Brand p = pp_Brand pp → 0 < p_PurchasePrice p →
  persisted db (written_row (db_sources db) (p, pp)).
Proof.
  intros [db' Hjob] Hp Hpp Hb Hprice. exists db'.
  pose proof Hjob as (out & Ht & ->)%job_Some. exists out.
  split; [done|]. split; [done|].
  apply transform_Some in Ht as [_ ->].
  apply list_elem_of_fmap. eexists. split; [reflexivity|].
  apply list_elem_of_fmap. eexists. split; [reflexivity|].
  apply elem_of_vendor_table. eexists. split; [|reflexivity].
  apply elem_of_purchase_keys. exists (p, pp). done.
Qed.

(** C9: when the job runs, a purchase row with [PurchasePrice > 0] is
    counted once per row of [purchase_prices] with its brand and the volume
    and price of the group: with no reference row of its brand nothing is
    written for the brand; with [n] rows of the brand, volume and price of
    [pp], the written row of the group sums the quantity and dollars of the
    group's purchase rows, [p] among them, [n] times. *)
Theorem join_multiplicity db p :
  is_Some (job db) →
  p ∈ purchases (db_sources db) → 0 < p_PurchasePrice p →
  ((∀ pp, pp ∈ purchase_prices (db_sources db) → pp_Brand pp ≠ p_Brand p) →
   ∀ r, persisted db r → Brand (columns r) ≠ p_Brand p)
  ∧ (∀ pp, pp ∈ purchase_prices (db_sources db) → pp_Brand pp = p_Brand p →
       let n := price_matches (db_sources db) (pp_Brand pp) (pp_Volume pp)
                  (pp_Price pp) in
       let r := written_row (db_sources db) (p, pp) in
       persisted db r ∧ (1 ≤ n)%nat
       ∧ p ∈ purchase_group (db_sources db) p
       ∧ totalpurchasequantity (columns r)
         = f64_of_Z (Z.of_nat n
                     * SUM (p_Quantity <$> purchase_group (db_sources db) p))
       ∧ totalpurchasedollars (columns r)
         = f64_of_Z (Z.of_nat n
                     * SUM (p_Dollars <$> purchase_group (db_sources db) p))).
Proof.
  intros Hjob Hp Hprice. split.
  - intros Hno r (q & pp & Hq & Hpp & Hb & _ & ->)%persisted_purchase.
    rewrite cleaned_Brand. simpl. intros Heq. apply (Hno pp Hpp). congruence.
  - intros pp Hpp Hb n r.
    split; [by apply persisted_written|].
    split; [by apply price_matches_pos|].
    split; [by apply elem_of_purchase_group|].
    by apply written_row_purchases.
Qed.

(** C1: for a vendor and a brand such that no row of [purchase_prices] of
    the brand is listed twice with the same [Volume] and price, and the
    purchase rows of the vendor and brand that pass the filter agree on the
    grouping columns ([VendorName], [Description], [PurchasePrice]), every
    row written for the vendor and brand carries the sum of [Dollars], and
    of [Quantity], over all purchase rows of that vendor and brand with
    [PurchasePrice > 0]. *)
Theorem purchase_totals db v b :
  (∀ pp, pp ∈ purchase_prices (db_sources db) → pp_Brand pp = b →
         price_matches (db_sources db) (pp_Brand pp) (pp_Volume pp)
           (pp_Price pp) = 1%nat) →
  (∀ p q, p ∈ valid_purchases (db_sources db) v b →
          q ∈ valid_purchases (db_sources db) v b →
          purchase_columns p = purchase_columns q) →
  ∀ r, persisted db r →
       VendorNumber (columns r) = v → Brand (columns r) = b →
       totalpurchasedollars (columns r)
       = f64_of_Z (SUM (p_Dollars <$> valid_purchases (db_sources db) v b))
       ∧ totalpurchasequantity (columns r)
         = f64_of_Z
             (SUM (p_Quantity <$> valid_purchases (db_sources db) v b)).
Proof.
  intros Honce Hagree r Hr Hv Hbrand.
  apply persisted_purchase in Hr as (p & pp & Hp & Hpp & Hb & Hprice & ->).
  fold (written_row (db_sources db) (p, pp)) in *.
  change (p_VendorNumber p = v) in Hv. change (p_Brand p = b) in Hbrand.
  destruct (written_row_purchases (db_sources db) p pp Hb Hprice) as [-> ->].
  rewrite (Honce pp Hpp) by congruence.
  assert (p ∈ valid_purchases (db_sources db) v b) as Hrows
    by (by apply list_elem_of_filter).
  assert (purchase_group (db_sources db) p
          = valid_purchases (db_sources db) v b) as ->.
  { apply filter_ext_elem_of. intros q Hq. split.
    - unfold purchase_columns. intros [= -> _ -> _ ->]. done.
    - intros Hq'. apply Hagree; [|done]. by apply list_elem_of_filter. }
  rewrite !Z.mul_1_l. done.
Qed.

(** ** When the job runs *)

Lemma elem_of_VendorName_column src o :
  o ∈ VendorName <$> (fillna <$> (astype_float64 <$> read_sql src))
  ↔ ∃ j, j ∈ purchases_joined (purchases src) (purchase_prices src)
         ∧ o = fillna_object (nullable_str (p_VendorName j.1)).
Proof.
  unfold read_sql. rewrite <- !list_fmap_compose, list_elem_of_fmap.
  setoid_rewrite elem_of_vendor_table.
  unfold purchase_keys. setoid_rewrite elem_of_remove_dups.
  setoid_rewrite list_elem_of_fmap. split.
  - intros (vt & -> & k & (j & -> & Hj) & ->). by exists j.
  - intros (j & Hj & ->).
    exists (vendor_table_row_of src (purchase_key j)).
    split; [done|]. exists (purchase_key j). split; [|done]. by exists j.
Qed.

(** In this embedding, where line 77 is the one line that can raise, the
    job raises exactly when the query returns rows and none of them has a
    [VendorName]. *)
Lemma job_runs db :
  let joined := purchases_joined (purchases (db_sources db))
                  (purchase_prices (db_sources db)) in
  is_Some (job db)
  ↔ ((∃ j, j ∈ joined ∧ p_VendorName j.1 = None)
     → ∃ j, j ∈ joined ∧ is_Some (p_VendorName j.1)).
Proof.
  intros joined. unfold is_Some. setoid_rewrite job_Some.
  transitivity (Is_true (str_accessor_allowed
    (VendorName <$> (fillna <$> (astype_float64
                                   <$> read_sql (db_sources db)))))).
  { split.
    - intros (db' & out & Ht & _). by apply transform_Some in Ht as [? _].
    - intros Ha. eexists _, _. split; [|done]. by apply transform_Some. }
  unfold str_accessor_allowed. rewrite bool_decide_spec, !Exists_exists.
  setoid_rewrite elem_of_VendorName_column. fold joined. split.
  - intros Himp (j & Hj & Hnone).
    destruct Himp as (o & (j' & Hj' & ->) & Hstr).
    + eexists. split; [by exists j|]. by rewrite Hnone.
    + exists j'. split; [done|]. destruct (p_VendorName j'.1); [eauto|done].
  - intros Himp (o & (j & Hj & ->) & Hint).
    destruct Himp as (j' & Hj' & [name Hname]).
    + exists j. split; [done|]. by destruct (p_VendorName j.1).
    + eexists. split; [by exists j'|]. by rewrite Hname.
Qed.

(** C2: when the job runs, the written table has a row for a vendor and
    brand exactly when the vendor and brand have a purchase row with
    [PurchasePrice > 0] and the brand occurs in [purchase_prices]. *)
Theorem valid_pairs_persisted db v b :
  is_Some (job db) →
  (∃ r, persisted db r ∧ VendorNumber (columns r) = v ∧ Brand (columns r) = b)
  ↔ (∃ p, p ∈ purchases (db_sources db) ∧ p_VendorNumber p = v
          ∧ p_Brand p = b ∧ 0 < p_PurchasePrice p)
    ∧ (∃ pp, pp ∈ purchase_prices (db_sources db) ∧ pp_Brand pp = b).
Proof.
  intros Hjob. split.
  - intros (r & Hr & Hv & Hb).
    apply persisted_purchase in Hr as (p & pp & Hp & Hpp & Hbrand & Hprice & ->).
    rewrite cleaned_VendorNumber in Hv. rewrite cleaned_Brand in Hb.
    simpl in Hv, Hb. split; [by exists p|]. exists pp. split; [done|].
    congruence.
  - intros [(p & Hp & <- & <- & Hprice) (pp & Hpp & Hb)].
    exists (written_row (db_sources db) (p, pp)).
    split; [by apply persisted_written|]. done.
Qed.

(** ** Derived columns *)

Lemma persisted_add_columns db r : persisted db r → r = add_columns (columns r).
Proof. by intros (k & _ & ->)%persisted_inv. Qed.

Lemma f64_div_zero x y : is_zero y → is_inf_or_nan (f64_div x y).
Proof. by destruct x, y. Qed.

Lemma f64_mul_hundred x : is_inf_or_nan x → is_inf_or_nan (f64_mul x hundred).
Proof. by destruct x. Qed.

(** C7: in a written row, a derived metric whose divisor is zero is an
    infinity or a NaN: [ProfitMargin] when [totalsalesdollars] is zero,
    [StockTurnover] when [totalpurchasequantity] is zero,
    [SalesToPurchaseRatio] when [totalpurchasedollars] is zero. *)
Theorem zero_divisor db r :
  persisted db r →
  (is_zero (totalsalesdollars (columns r)) → is_inf_or_nan (ProfitMargin r))
  ∧ (is_zero (totalpurchasequantity (columns r))
     → is_inf_or_nan (StockTurnover r))
  ∧ (is_zero (totalpurchasedollars (columns r))
     → is_inf_or_nan (SalesToPurchaseRatio r)).
Proof.
  intros Hr. rewrite (persisted_add_columns db r Hr).
  cbn [add_columns columns ProfitMargin StockTurnover SalesToPurchaseRatio].
  split; [|split]; intros Hz.
  - by apply f64_mul_hundred, f64_div_zero.
  - by apply f64_div_zero.
  - by apply f64_div_zero.
Qed.

Lemma f64_positive x :
  f64_ltb zero x = true →
  x = S754_infinity false ∨ ∃ m e, x = S754_finite false m e.
Proof. destruct x as [s|[]| |[] m e]; try done; eauto. Qed.

(** C10: in a row written for a vendor and brand without sale rows,
    [StockTurnover] is 0 when [totalpurchasequantity] is positive, and when
    [totalpurchasedollars] is positive [SalesToPurchaseRatio] is 0 and
    [ProfitMargin] is minus infinity. *)
Theorem no_sales_metrics db r :
  persisted db r →
  (∀ s, s ∈ sales (db_sources db) →
        ¬ (s_VendorNo s = VendorNumber (columns r)
           ∧ s_Brand s = Brand (columns r))) →
  (f64_ltb zero (totalpurchasequantity (columns r)) = true
   → StockTurnover r = zero)
  ∧ (f64_ltb zero (totalpurchasedollars (columns r)) = true
     → SalesToPurchaseRatio r = zero ∧ ProfitMargin r = neg_infinity).
Proof.
  intros Hr Hs.
  destruct (persisted_no_sales db r Hr Hs) as (Hq & _ & Hd & _).
  rewrite (persisted_add_columns db r Hr).
  cbn [add_columns columns ProfitMargin StockTurnover SalesToPurchaseRatio].
  rewrite Hq, Hd.
  split; intros [->|(m & e & ->)]%f64_positive; done.
Qed.

(** ** Independence of the row order *)

Global Instance SUM_Permutation : Proper ((≡ₚ) ==> (=)) SUM.
Proof. induction 1; simpl; lia. Qed.

Lemma bind_Permutation_ext {A B} (f g : A → list B) (l l' : list A) :
  l ≡ₚ l' → (∀ a, f a ≡ₚ g a) → l ≫= f ≡ₚ l' ≫= g.
Proof.
  intros Hl Hfg. rewrite <- Hl. clear l' Hl.
  induction l as [|a l IH]; [done|].
  rewrite !bind_cons. by rewrite Hfg, IH.
Qed.

Lemma remove_dups_Permutation {A} `{EqDecision A} (l l' : list A) :
  l ≡ₚ l' → remove_dups l ≡ₚ remove_dups l'.
Proof.
  intros Hl. apply NoDup_Permutation; try apply NoDup_remove_dups.
  intros x. by rewrite !elem_of_remove_dups, Hl.
Qed.

Lemma purchases_joined_Permutation P P' PP PP' :
  P ≡ₚ P' → PP ≡ₚ PP' → purchases_joined P PP ≡ₚ purchases_joined P' PP'.
Proof.
  intros HP HPP. unfold purchases_joined, inner_join.
  apply filter_Permutation, bind_Permutation_ext; [done|].
  intros p. by rewrite HPP.
Qed.

Lemma purchase_keys_Permutation s1 s2 :
  same_rows s1 s2 → purchase_keys s1 ≡ₚ purchase_keys s2.
Proof.
  intros (_ & HP & HPP & _). unfold purchase_keys.
  apply remove_dups_Permutation, fmap_Permutation.
  by apply purchases_joined_Permutation.
Qed.

Lemma group_of_Permutation {R K} `{EqDecision K} (key : R → K) rows rows' k :
  rows ≡ₚ rows' →
  match group_of key rows k, group_of key rows' k with
  | Some g, Some g' => g.1 = g'.1 ∧ g.2 ≡ₚ g'.2
  | None, None => True
  | _, _ => False
  end.
Proof.
  intros Hrows. unfold group_of.
  destruct (decide (k ∈ key <$> rows)) as [Hk|Hk].
  - rewrite decide_True by (by rewrite <- Hrows). simpl. by rewrite Hrows.
  - by rewrite decide_False by (by rewrite <- Hrows).
Qed.

Lemma vendor_table_row_of_Permutation s1 s2 k :
  same_rows s1 s2 → vendor_table_row_of s1 k = vendor_table_row_of s2 k.
Proof.
  intros (Hvi & HP & HPP & Hs). unfold vendor_table_row_of.
  pose proof (purchases_joined_Permutation _ _ _ _ HP HPP) as Hj.
  assert (Purchase_summary_of_group
            (k, filter (λ j, purchase_key j = k)
                  (purchases_joined (purchases s1) (purchase_prices s1)))
          = Purchase_summary_of_group
              (k, filter (λ j, purchase_key j = k)
                    (purchases_joined (purchases s2) (purchase_prices s2))))
    as ->.
  { destruct k as [[[[[[vn name] b] descr] price] volume] actual].
    unfold Purchase_summary_of_group. cbn [fst snd]. by rewrite Hj. }
  set (ps := Purchase_summary_of_group _).
  pose proof (group_of_Permutation sales_key _ _
                (ps_VendorNumber ps, ps_Brand ps) Hs) as Hss.
  pose proof (group_of_Permutation vi_VendorNumber _ _
                (ps_VendorNumber ps) Hvi) as Hcs.
  destruct (group_of sales_key (sales s1) _) as [[k1 g1]|],
    (group_of sales_key (sales s2) _) as [[k2 g2]|]; try done;
  destruct (group_of vi_VendorNumber (vendor_invoice s1) _) as [[v1 i1]|],
    (group_of vi_VendorNumber (vendor_invoice s2) _) as [[v2 i2]|];
    try done; simpl in *.
  - destruct Hss as [-> Hss], Hcs as [-> Hcs].
    unfold sales_summary_of_group, Freight_summary_of_group. simpl.
    by rewrite Hss, Hcs.
  - destruct Hss as [-> Hss].
    unfold sales_summary_of_group. simpl. by rewrite Hss.
  - destruct Hcs as [-> Hcs].
    unfold Freight_summary_of_group. simpl. by rewrite Hcs.
Qed.

Lemma vendor_table_same_rows s1 s2 :
  same_rows s1 s2 → vendor_table s1 ≡ₚ vendor_table s2.
Proof.
  intros Hs. rewrite !vendor_table_Permutation.
  rewrite (purchase_keys_Permutation s1 s2 Hs).
  rewrite (list_fmap_ext (vendor_table_row_of s1) (vendor_table_row_of s2));
    [done|].
  intros _ k _. by apply vendor_table_row_of_Permutation.
Qed.

Lemma transform_Permutation df1 df2 :
  df1 ≡ₚ df2 →
  match transform df1, transform df2 with
  | Some t1, Some t2 => t1 ≡ₚ t2
  | None, None => True
  | _, _ => False
  end.
Proof.
  intros Hdf. unfold transform.
  assert (str_accessor_allowed
            (VendorName <$> (fillna <$> (astype_float64 <$> df1)))
          = str_accessor_allowed
              (VendorName <$> (fillna <$> (astype_float64 <$> df2)))) as ->.
  { unfold str_accessor_allowed. apply bool_decide_ext. by rewrite Hdf. }
  destruct (str_accessor_allowed _); [|done]. by rewrite Hdf.
Qed.

(** Running the job again on the database it left writes the same table
    again. *)
Lemma job_rerun db db' :
  job db = Some db' → db_sources db' = db_sources db ∧ job db' = Some db'.
Proof.
  intros (out & Ht & ->)%job_Some. split; [done|].
  unfold job. simpl. by rewrite Ht.
Qed.

(** C8: the outcome of the job is a function of the four source tables.
    The job leaves them as they are, and a second run on the database it
    left writes the same table again; a run that starts from the same
    source tables, whatever the destination held before, writes the same
    table; and when the source tables hold the same rows in another order,
    the job raises or not alike and writes the same rows, up to their
    order. *)
Theorem job_deterministic db1 db2 :
  (∀ db', job db1 = Some db' →
          db_sources db' = db_sources db1 ∧ job db' = Some db')
  ∧ (db_sources db1 = db_sources db2 →
     vendor_cleaned <$> job db1 = vendor_cleaned <$> job db2)
  ∧ (same_rows (db_sources db1) (db_sources db2) →
     same_outcome (job db1) (job db2)).
Proof.
  split; [apply job_rerun|]. split.
  - intros Heq. unfold job. rewrite Heq.
    by destruct (transform _).
  - intros Hs. unfold job, read_sql.
    pose proof (transform_Permutation _ _
                  (fmap_Permutation read_sql_row _ _
                     (vendor_table_same_rows _ _ Hs))) as Ht.
    by destruct (transform _), (transform _).
Qed.

(** ** Null handling *)

Lemma cells_fillna r : cells (fillna r) = filled <$> cells r.
Proof.
  destruct r as [vn name b descr price actual volume tpd tpq fc tsp tsq tsd
                   tet].
  unfold cells, fillna. simpl. repeat f_equal;
    match goal with |- context [fillna_object ?o] => by destruct o
                  | |- context [fillna_float ?x] => by destruct x end.
Qed.

Lemma filled_not_missing c : ¬ missing (filled c).
Proof. destruct c as [| |[]|[]]; cbv; tauto. Qed.

(** What lines 75 and 77 do to a purchase group without [VendorName]:
    [fillna] replaces the missing cells of every column, the text columns
    included, by 0 and leaves no cell missing; the trim of [VendorName]
    that follows maps what is not a string to a missing value, so the 0 of
    [fillna] is lost again in the written row. *)
Theorem fillna_then_strip db p pp :
  (∀ r, cells (fillna r) = filled <$> cells r
        ∧ Forall (λ c, ¬ missing c) (cells (fillna r)))
  ∧ (is_Some (job db) →
     p ∈ purchases (db_sources db) → pp ∈ purchase_prices (db_sources db) →
     p_Brand p = pp_Brand pp → 0 < p_PurchasePrice p →
     p_VendorName p = None →
     let df := astype_float64
                 (read_sql_row
                    (vendor_table_row_of (db_sources db)
                       (purchase_key (p, pp)))) in
     VendorName df = PyNA
     ∧ VendorName (fillna df) = PyInt 0
     ∧ persisted db (written_row (db_sources db) (p, pp))
     ∧ VendorName (columns (written_row (db_sources db) (p, pp))) = PyNA).
Proof.
  split.
  - intros r. rewrite cells_fillna. split; [done|].
    apply Forall_fmap, Forall_true. intros c. apply filled_not_missing.
  - intros Hjob Hp Hpp Hb Hprice Hname df.
    split; [|split; [|split]].
    + subst df. simpl. by rewrite Hname.
    + subst df. simpl. by rewrite Hname.
    + by apply persisted_written.
    + unfold written_row. rewrite cleaned_VendorName. simpl.
      by rewrite Hname.
Qed.

(** When no purchase group has a [VendorName], the trim raises and nothing
    is written. *)
Lemma all_null_names_raises : job all_null_names_db = None.
Proof. reflexivity. Qed.

(** ** The concrete databases *)

Lemma purchase_totals_counterexample :
  (∃ r, persisted two_price_db r
        ∧ VendorNumber (columns r) = 1 ∧ Brand (columns r) = "A"%string
        ∧ totalpurchasedollars (columns r) = f64_of_Z 100
        ∧ SUM (p_Dollars <$> valid_purchases (db_sources two_price_db) 1 "A")
          = 150
        ∧ f64_of_Z 100 ≠ f64_of_Z 150)
  ∧ (∃ r, persisted duplicate_brand_db r
          ∧ VendorNumber (columns r) = 1 ∧ Brand (columns r) = "A"%string
          ∧ totalpurchasedollars (columns r) = f64_of_Z 200
          ∧ SUM (p_Dollars
                   <$> valid_purchases (db_sources duplicate_brand_db) 1 "A")
            = 100
          ∧ f64_of_Z 200 ≠ f64_of_Z 100).
Proof.
  split.
  - exists (written_row (db_sources two_price_db) (acme_gin, brand_A)).
    split; [run_job|]. by repeat split.
  - exists (written_row (db_sources duplicate_brand_db) (acme_gin, brand_A)).
    split; [run_job|]. by repeat split.
Qed.

Lemma purchase_totals_witness :
  let src := db_sources two_volume_db in
  let r1 := written_row src (acme_gin, brand_A) in
  let r2 := written_row src (acme_gin_more, brand_A_litre) in
  persisted two_volume_db r1 ∧ persisted two_volume_db r2
  ∧ valid_purchases src 1 "A" = [acme_gin; acme_gin_more]
  ∧ ¬ NoDup (pp_Brand <$> purchase_prices src)
  ∧ Volume (columns r1) = f64_of_Z 750 ∧ Volume (columns r2) = f64_of_Z 1000
  ∧ totalpurchasedollars (columns r1) = f64_of_Z 140
  ∧ totalpurchasequantity (columns r1) = f64_of_Z 14
  ∧ totalpurchasedollars (columns r2) = f64_of_Z 140
  ∧ totalpurchasequantity (columns r2) = f64_of_Z 14.
Proof.
  intros src r1 r2.
  assert (persisted two_volume_db r1) as Hr1 by run_job.
  assert (persisted two_volume_db r2) as Hr2 by run_job.
  assert (∀ pp, pp ∈ purchase_prices src → pp_Brand pp = "A"%string →
                price_matches src (pp_Brand pp) (pp_Volume pp) (pp_Price pp)
                = 1%nat) as Honce.
  { intros pp Hpp Hb.
    change (pp ∈ [brand_A; brand_B; brand_A_litre; brand_B]) in Hpp.
    repeat (apply elem_of_cons in Hpp as [->|Hpp]; [done || discriminate Hb|]).
    by apply elem_of_nil in Hpp. }
  assert (∀ p q, p ∈ valid_purchases src 1 "A" →
                 q ∈ valid_purchases src 1 "A" →
                 purchase_columns p = purchase_columns q) as Hagree.
  { intros p q Hp Hq.
    change (p ∈ [acme_gin; acme_gin_more]) in Hp.
    change (q ∈ [acme_gin; acme_gin_more]) in Hq.
    repeat (apply elem_of_cons in Hp as [->|Hp]);
      repeat (apply elem_of_cons in Hq as [->|Hq]);
      try done; by apply elem_of_nil in Hp || by apply elem_of_nil in Hq. }
  destruct (purchase_totals two_volume_db 1 "A" Honce Hagree r1 Hr1)
    as [Hd1 Hq1]; [done..|].
  destruct (purchase_totals two_volume_db 1 "A" Honce Hagree r2 Hr2)
    as [Hd2 Hq2]; [done..|].
  split_and!; [done|done|done| |done|done|exact Hd1|exact Hq1|exact Hd2
              |exact Hq2].
  intros Hnodup. change (NoDup ["A"; "B"; "A"; "B"]%string) in Hnodup.
  apply NoDup_cons in Hnodup as [Hnotin _]. apply Hnotin.
  right. left.
Defined.

Lemma valid_pairs_counterexample :
  is_Some (job missing_brand_db)
  ∧ (∃ p, p ∈ purchases (db_sources missing_brand_db)
          ∧ p_VendorNumber p = 1 ∧ p_Brand p = "A"%string
          ∧ 0 < p_PurchasePrice p)
  ∧ ¬ ∃ r, persisted missing_brand_db r
           ∧ VendorNumber (columns r) = 1 ∧ Brand (columns r) = "A"%string.
Proof.
  split; [job_runs_here|]. split.
  - exists acme_gin. split_and!; try done. left.
  - intros (r & (db' & out & Hjob & Hout & Hr) & _).
    vm_compute in Hjob. injection Hjob as <-. simpl in Hout.
    injection Hout as <-. by apply elem_of_nil in Hr.
Qed.

Lemma valid_pairs_persisted_witness :
  is_Some (job scenario_db)
  ∧ ∃ r, persisted scenario_db r
         ∧ VendorNumber (columns r) = 1 ∧ Brand (columns r) = "A"%string.
Proof.
  assert (is_Some (job scenario_db)) as Hjob by job_runs_here.
  split; [done|].
  apply (valid_pairs_persisted scenario_db 1 "A" Hjob). split.
  - exists acme_gin. split_and!; try done. left.
  - exists brand_A. split; [left|done].
Defined.

Lemma freight_broadcast_witness :
  let src := db_sources two_invoice_db in
  let r1 := written_row src (acme_gin, brand_A) in
  let r2 := written_row src (acme_gin_at_6, brand_A) in
  persisted two_invoice_db r1 ∧ persisted two_invoice_db r2
  ∧ totalpurchasedollars (columns r1) = f64_of_Z 100
  ∧ totalpurchasedollars (columns r2) = f64_of_Z 50
  ∧ VendorNumber (columns r1) = 1 ∧ VendorNumber (columns r2) = 1
  ∧ vendor_freight src 1 = 5 + 7
  ∧ freightcost (columns r1) = freightcost (columns r2)
  ∧ freightcost (columns r1) = f64_of_Z 12.
Proof.
  intros src r1 r2.
  assert (persisted two_invoice_db r1) as Hr1 by run_job.
  assert (persisted two_invoice_db r2) as Hr2 by run_job.
  do 7 (split; [done|]).
  exact (freight_broadcast two_invoice_db 1 r1 r2 Hr1 Hr2 eq_refl eq_refl).
Defined.

Lemma missing_aggregates_are_zero_witness :
  let r := written_row (db_sources no_sales_db) (acme_gin, brand_A) in
  persisted no_sales_db r
  ∧ totalsalesquantity (columns r) = zero
  ∧ totalsalesprice (columns r) = zero
  ∧ totalsalesdollars (columns r) = zero
  ∧ totalexcisetax (columns r) = zero
  ∧ freightcost (columns r) = zero.
Proof.
  intros r.
  assert (persisted no_sales_db r) as Hr by run_job.
  split; [done|].
  destruct (missing_aggregates_are_zero no_sales_db r Hr) as [Hs Hf].
  destruct Hs as (? & ? & ? & ?).
  { intros s Hs. by apply elem_of_nil in Hs. }
  split_and!; [assumption..|].
  apply Hf. intros i Hi. by apply elem_of_nil in Hi.
Defined.

Lemma filter_exclusion_witness :
  let r := written_row (db_sources free_stock_db) (acme_gin, brand_A) in
  persisted free_stock_db r
  ∧ ¬ (VendorNumber (columns r) = 3 ∧ Brand (columns r) = "A"%string).
Proof.
  intros r.
  assert (persisted free_stock_db r) as Hr by run_job.
  split; [done|].
  apply (filter_exclusion free_stock_db 3 "A" r); [|done].
  intros p Hp Hv Hb.
  change (p ∈ [free_gin; acme_gin]) in Hp.
  apply elem_of_cons in Hp as [->|Hp]; [simpl; lia|].
  apply list_elem_of_singleton in Hp as ->. discriminate Hv.
Defined.

(** C6: [fillna] does replace the missing cells of every column, the text
    columns included, by 0; line 77 then loses the 0 of [VendorName].  For
    a purchase without name and description next to a named one, the frame
    holds 0 in both text columns after line 75, and the written table keeps
    the 0 of [Description] but has a missing [VendorName] where the 0
    should be; with unnamed purchases only the script raises at line 77
    and writes nothing. *)
Theorem null_VendorName_lost :
  (∀ r, cells (fillna r) = filled <$> cells r
        ∧ Forall (λ c, ¬ missing c) (cells (fillna r)))
  ∧ anonymous_gin ∈ purchases (db_sources null_name_db)
  ∧ p_VendorName anonymous_gin = None
  ∧ p_Description anonymous_gin = None
  ∧ (λ r, (VendorNumber r, VendorName r, Description r))
      <$> (fillna <$> (astype_float64
                         <$> read_sql (db_sources null_name_db)))
    = [(1, PyStr "ACME ", PyStr "Gin"); (2, PyInt 0, PyInt 0)]
  ∧ (∃ db' out,
       job null_name_db = Some db' ∧ vendor_cleaned db' = Some out
       ∧ (λ r, (VendorNumber (columns r), VendorName (columns r),
                Description (columns r))) <$> out
         = [(1, PyStr "ACME", PyStr "Gin"); (2, PyNA, PyInt 0)])
  ∧ job all_null_names_db = None.
Proof.
  split.
  { intros r. rewrite cells_fillna. split; [done|].
    apply Forall_fmap, Forall_true. intros c. apply filled_not_missing. }
  split; [left|]. split; [done|]. split; [done|]. split; [done|].
  split; [|done].
  eexists _, _. split; [vm_compute; reflexivity|]. split; reflexivity.
Qed.

Lemma fillna_then_strip_witness :
  let j := (anonymous_gin, brand_A) in
  is_Some (job null_name_db)
  ∧ p_VendorName j.1 = None
  ∧ persisted null_name_db (written_row (db_sources null_name_db) j)
  ∧ VendorName (columns (written_row (db_sources null_name_db) j)) = PyNA.
Proof.
  intros j.
  assert (is_Some (job null_name_db)) as Hjob by job_runs_here.
  split; [done|]. split; [done|].
  destruct (fillna_then_strip null_name_db anonymous_gin brand_A)
    as [_ Hstrip].
  destruct Hstrip as (_ & _ & Hr & Hna); try done; left.
Defined.

Lemma zero_divisor_witness :
  let r := written_row (db_sources no_sales_db) (acme_gin, brand_A) in
  persisted no_sales_db r
  ∧ is_zero (totalsalesdollars (columns r))
  ∧ is_inf_or_nan (ProfitMargin r).
Proof.
  intros r.
  assert (persisted no_sales_db r) as Hr by run_job.
  split; [done|]. split; [exact I|].
  by apply (zero_divisor no_sales_db r Hr).
Defined.

Lemma join_multiplicity_counterexample :
  free_gin ∈ purchases (db_sources free_stock_db)
  ∧ p_Quantity free_gin = 2
  ∧ price_matches (db_sources free_stock_db) (p_Brand free_gin) 750 12
    = 1%nat
  ∧ ∃ db' out,
      job free_stock_db = Some db' ∧ vendor_cleaned db' = Some out
      ∧ (λ r, (VendorNumber (columns r), totalpurchasequantity (columns r)))
          <$> out
        = [(1, f64_of_Z 10)].
Proof.
  split; [left|]. split; [done|]. split; [done|].
  eexists _, _. split; [vm_compute; reflexivity|]. split; reflexivity.
Qed.

Lemma join_multiplicity_witness :
  let db := duplicate_brand_db in
  let r := written_row (db_sources db) (acme_gin, brand_A) in
  is_Some (job db)
  ∧ acme_gin ∈ purchases (db_sources db)
  ∧ persisted db r
  ∧ totalpurchasequantity (columns r) = f64_of_Z (2 * 10)
  ∧ totalpurchasedollars (columns r) = f64_of_Z (2 * 100).
Proof.
  intros db r.
  assert (is_Some (job db)) as Hjob by job_runs_here.
  assert (acme_gin ∈ purchases (db_sources db)) as Hp by left.
  split; [done|]. split; [done|].
  destruct (join_multiplicity db acme_gin Hjob Hp) as [_ Hn]; [simpl; lia|].
  destruct (Hn brand_A) as (Hr & _ & _ & Hq & Hd); [left|done|].
  split; [done|]. split; [exact Hq|exact Hd].
Defined.

Lemma no_sales_metrics_witness :
  let r := written_row (db_sources no_sales_db) (acme_gin, brand_A) in
  persisted no_sales_db r
  ∧ StockTurnover r = zero
  ∧ SalesToPurchaseRatio r = zero
  ∧ ProfitMargin r = neg_infinity.
Proof.
  intros r.
  assert (persisted no_sales_db r) as Hr by run_job.
  split; [done|].
  destruct (no_sales_metrics no_sales_db r Hr) as [Hq Hd].
  { intros s Hs. by apply elem_of_nil in Hs. }
  split; [by apply Hq|]. by apply Hd.
Defined.

Lemma job_deterministic_witness :
  same_rows (db_sources null_name_db) (db_sources null_name_swapped_db)
  ∧ same_outcome (job null_name_db) (job null_name_swapped_db).
Proof.
  assert (same_rows (db_sources null_name_db)
            (db_sources null_name_swapped_db)) as Hs.
  { split_and!; try done. apply perm_swap. }
  split; [done|].
  by apply (job_deterministic null_name_db null_name_swapped_db).
Defined.

(** With the brand listed twice the purchase of 100 dollars is summed to
    200. *)
Lemma duplicate_brand_doubles :
  ∃ r, persisted duplicate_brand_db r
       ∧ totalpurchasedollars (columns r) = f64_of_Z 200
       ∧ SUM (p_Dollars
                <$> valid_purchases (db_sources duplicate_brand_db) 1 "A")
         = 100.
Proof.
  exists (written_row (db_sources duplicate_brand_db) (acme_gin, brand_A)).
  split; [run_job|]. by split.
Qed.

(** The scenario of the specification: a gross profit of -4, a margin of
    -4.1666..., a turnover of 0.8 and a ratio of 0.96, as the nearest
    binary64 values. *)
Lemma scenario_metrics :
  let r := written_row scenario (acme_gin, brand_A) in
  persisted scenario_db r
  ∧ GrossProfit r = f64_of_Z (-4)
  ∧ ProfitMargin r = S754_finite true 4691249611844266 (-50)
  ∧ StockTurnover r = S754_finite false 7205759403792794 (-53)
  ∧ SalesToPurchaseRatio r = S754_finite false 8646911284551352 (-53).
Proof. intros r. split; [run_job|]. by repeat split. Qed.

(** * Further properties of the script *)

(** ** The sales summary *)

Lemma vendor_table_row_sales src k :
  let vt := vendor_table_row_of src k in
  let rows := sales_of src (vt_VendorNumber vt) (vt_Brand vt) in
  default 0 (vt_totalsalesquantity vt) = SUM (s_SalesQuantity <$> rows)
  ∧ default 0 (vt_totalsalesprice vt) = SUM (s_SalesPrice <$> rows)
  ∧ default 0 (vt_totalsalesdollars vt) = SUM (s_SalesDollars <$> rows)
  ∧ default 0 (vt_totalexcisetax vt) = SUM (s_ExciseTax <$> rows).
Proof.
  unfold vendor_table_row_of, sales_of. simpl.
  destruct (group_of sales_key _ _) as [g|] eqn:E; simpl.
  - by apply group_of_Some in E as ->.
  - by apply group_of_None in E as ->.
Qed.

(** X1: the four sales aggregates of a written row are the sums of
    [SalesQuantity], [SalesPrice], [SalesDollars] and [ExciseTax] over the
    sale rows of the row's vendor and brand (read as floats), so all the
    rows of one vendor and brand repeat the same sales aggregates. *)
Theorem sales_aggregates db r :
  persisted db r →
  let rows := sales_of (db_sources db) (VendorNumber (columns r))
                (Brand (columns r)) in
  totalsalesquantity (columns r) = f64_of_Z (SUM (s_SalesQuantity <$> rows))
  ∧ totalsalesprice (columns r) = f64_of_Z (SUM (s_SalesPrice <$> rows))
  ∧ totalsalesdollars (columns r) = f64_of_Z (SUM (s_SalesDollars <$> rows))
  ∧ totalexcisetax (columns r) = f64_of_Z (SUM (s_ExciseTax <$> rows)).
Proof.
  intros (k & Hk & ->)%persisted_inv.
  rewrite cleaned_VendorNumber, cleaned_Brand, cleaned_totalsalesquantity,
    cleaned_totalsalesprice, cleaned_totalsalesdollars,
    cleaned_totalexcisetax.
  destruct (vendor_table_row_sales (db_sources db) k) as (-> & -> & -> & ->).
  done.
Qed.

Lemma sales_aggregates_witness :
  let r := written_row scenario (acme_gin, brand_A) in
  persisted scenario_db r
  ∧ totalsalesquantity (columns r) = f64_of_Z 8
  ∧ totalsalesprice (columns r) = f64_of_Z 12
  ∧ totalsalesdollars (columns r) = f64_of_Z 96
  ∧ totalexcisetax (columns r) = f64_of_Z 1.
Proof.
  intros r.
  assert (persisted scenario_db r) as Hr by run_job.
  split; [done|]. exact (sales_aggregates scenario_db r Hr).
Defined.

(** ** The shape of the query result *)

Lemma vt_key_row_of src k : vt_key (vendor_table_row_of src k) = k.
Proof. by destruct k as [[[[[[vn name] b] descr] price] volume] actual]. Qed.

Lemma vt_key_vendor_table src :
  vt_key <$> vendor_table src ≡ₚ purchase_keys src.
Proof.
  rewrite vendor_table_Permutation, <- list_fmap_compose.
  rewrite (list_fmap_ext _ id); [by rewrite list_fmap_id|].
  intros _ k _. apply vt_key_row_of.
Qed.

(** X2: the query returns exactly one row for each distinct combination of
    the seven grouping columns among the joined purchase rows that pass the
    filter: no two rows agree on all seven columns, and the two left joins
    neither drop nor duplicate a row of [Purchase_summary]. *)
Theorem one_row_per_group src :
  NoDup (vt_key <$> vendor_table src)
  ∧ (∀ k, k ∈ vt_key <$> vendor_table src
          ↔ k ∈ purchase_key
                  <$> purchases_joined (purchases src) (purchase_prices src))
  ∧ length (vendor_table src)
    = length (Purchase_summary (purchases src) (purchase_prices src)).
Proof.
  split; [|split].
  - rewrite vt_key_vendor_table. apply purchase_keys_NoDup.
  - intros k. rewrite vt_key_vendor_table. apply elem_of_remove_dups.
  - rewrite <- (length_fmap vt_key), vt_key_vendor_table.
    unfold Purchase_summary, group_by, purchase_keys.
    by rewrite !length_fmap.
Qed.

Lemma purchase_keys_nil src :
  purchase_keys src = []
  ↔ ∀ p pp, p ∈ purchases src → pp ∈ purchase_prices src →
            p_Brand p = pp_Brand pp → p_PurchasePrice p ≤ 0.
Proof.
  split.
  - intros Hnil p pp Hp Hpp Hb.
    destruct (decide (0 < p_PurchasePrice p)) as [Hprice|]; [|lia].
    assert (purchase_key (p, pp) ∈ purchase_keys src) as Hin
      by (apply elem_of_purchase_keys; by exists (p, pp)).
    rewrite Hnil in Hin. by apply elem_of_nil in Hin.
  - intros Hall. destruct (purchase_keys src) as [|k ks] eqn:E; [done|].
    assert (k ∈ purchase_keys src) as Hin by (rewrite E; left).
    apply elem_of_purchase_keys in Hin
      as ([p pp] & _ & Hp & Hpp & Hb & Hprice).
    specialize (Hall p pp Hp Hpp Hb). simpl in *. lia.
Qed.

Lemma vendor_table_nil src : vendor_table src = [] ↔ purchase_keys src = [].
Proof.
  split; intros Hnil.
  - pose proof (vendor_table_Permutation src) as HP. rewrite Hnil in HP.
    apply Permutation_nil_l in HP. symmetry in HP.
    by apply fmap_nil_inv in HP.
  - apply Permutation_nil_r. by rewrite vendor_table_Permutation, Hnil.
Qed.

(** X5: the job writes an empty table, without raising, exactly when no
    purchase row with [PurchasePrice > 0] has its brand in
    [purchase_prices]; this covers an empty [purchases] and an empty
    [purchase_prices]. *)
Theorem empty_table db :
  job db = Some (to_sql [] db)
  ↔ ∀ p pp, p ∈ purchases (db_sources db) →
            pp ∈ purchase_prices (db_sources db) →
            p_Brand p = pp_Brand pp → p_PurchasePrice p ≤ 0.
Proof.
  rewrite <- purchase_keys_nil, <- vendor_table_nil. split.
  - intros (out & Ht & Hdb)%job_Some.
    assert (out = []) as -> by (unfold to_sql in Hdb; congruence).
    apply transform_Some in Ht as [_ Ht]. symmetry in Ht.
    apply fmap_nil_inv in Ht. by apply fmap_nil_inv in Ht.
  - intros Hnil. unfold job, read_sql. by rewrite Hnil.
Qed.

(** ** Grouping conserves the totals *)

Section grouping_totals.
Context {A K : Type} `{EqDecision K} (key : A → K) (f : A → Z).

Lemma filter_all (P : A → Prop) `{∀ x, Decision (P x)} (l : list A) :
  (∀ x, x ∈ l → P x) → filter P l = l.
Proof.
  induction l as [|x l IH]; intros HP; [done|].
  rewrite filter_cons_True by (apply HP; left).
  rewrite IH; [done|]. intros y Hy. apply HP. by right.
Qed.

Lemma SUM_filter_or (P Q : A → Prop) `{∀ x, Decision (P x)}
    `{∀ x, Decision (Q x)} (l : list A) :
  (∀ x, P x → Q x → False) →
  SUM (f <$> filter (λ x, P x ∨ Q x) l)
  = SUM (f <$> filter P l) + SUM (f <$> filter Q l).
Proof.
  intros Hdisjoint. induction l as [|x l IH]; [done|].
  rewrite !filter_cons.
  destruct (decide (P x)) as [HP|HP], (decide (Q x)) as [HQ|HQ].
  - destruct (Hdisjoint x HP HQ).
  - rewrite decide_True by tauto. rewrite !fmap_cons. simpl. fold SUM. lia.
  - rewrite decide_True by tauto. rewrite !fmap_cons. simpl. fold SUM. lia.
  - rewrite decide_False by tauto. done.
Qed.

Lemma SUM_groups (ks : list K) (rows : list A) :
  NoDup ks →
  SUM ((λ k, SUM (f <$> filter (λ r, key r = k) rows)) <$> ks)
  = SUM (f <$> filter (λ r, key r ∈ ks) rows).
Proof.
  induction 1 as [|k ks Hk Hks IH].
  - rewrite filter_none; [done|]. intros r _ Hr. by apply elem_of_nil in Hr.
  - rewrite fmap_cons. simpl. fold SUM. rewrite IH.
    rewrite <- SUM_filter_or by (intros r -> Hr; done).
    f_equal. f_equal. apply list_filter_iff. intros r.
    rewrite elem_of_cons. done.
Qed.

(** The sums of the groups add up to the sum over all the rows. *)
Lemma SUM_group_by (rows : list A) :
  SUM ((λ g, SUM (f <$> g.2)) <$> group_by key rows) = SUM (f <$> rows).
Proof.
  unfold group_by. rewrite <- list_fmap_compose. simpl.
  rewrite (SUM_groups _ rows) by apply NoDup_remove_dups.
  rewrite filter_all; [done|].
  intros r Hr. apply elem_of_remove_dups. by apply list_elem_of_fmap_2.
Qed.
Lemma group_by_keys (rows : list A) :
  (group_by key rows).*1 = remove_dups (key <$> rows).
Proof.
  unfold group_by. rewrite <- list_fmap_compose. apply list_fmap_id.
Qed.
End grouping_totals.

(** X6: [Freight_summary] has exactly one row for each vendor of
    [vendor_invoice] and none for another vendor, and its freight costs add
    up to the freight of all the invoice rows: grouping loses and
    duplicates nothing. *)
Theorem Freight_summary_conserves vi :
  NoDup (cs_VendorNumber <$> Freight_summary vi)
  ∧ (∀ v, v ∈ cs_VendorNumber <$> Freight_summary vi
          ↔ v ∈ vi_VendorNumber <$> vi)
  ∧ SUM (cs_freightcost <$> Freight_summary vi) = SUM (vi_Freight <$> vi).
Proof.
  unfold Freight_summary. rewrite <- !list_fmap_compose.
  change (cs_VendorNumber ∘ Freight_summary_of_group
            <$> group_by vi_VendorNumber vi)
    with ((group_by vi_VendorNumber vi).*1).
  rewrite group_by_keys. split; [apply NoDup_remove_dups|].
  split; [intros v; apply elem_of_remove_dups|].
  apply (SUM_group_by vi_VendorNumber vi_Freight).
Qed.

(** X7: [sales_summary] has exactly one row for each vendor and brand of
    [sales] and none for another pair, and each of its four aggregates adds
    up to the total of its column over all the sale rows. *)
Theorem sales_summary_conserves sl :
  NoDup ((λ ss, (ss_VendorNo ss, ss_Brand ss)) <$> sales_summary sl)
  ∧ (∀ k, k ∈ (λ ss, (ss_VendorNo ss, ss_Brand ss)) <$> sales_summary sl
          ↔ k ∈ sales_key <$> sl)
  ∧ SUM (ss_totalsalesquantity <$> sales_summary sl)
    = SUM (s_SalesQuantity <$> sl)
  ∧ SUM (ss_totalsalesprice <$> sales_summary sl) = SUM (s_SalesPrice <$> sl)
  ∧ SUM (ss_totalsalesdollars <$> sales_summary sl)
    = SUM (s_SalesDollars <$> sl)
  ∧ SUM (ss_totalexcisetax <$> sales_summary sl) = SUM (s_ExciseTax <$> sl).
Proof.
  unfold sales_summary. rewrite <- !list_fmap_compose.
  rewrite (list_fmap_ext
             ((λ ss, (ss_VendorNo ss, ss_Brand ss)) ∘ sales_summary_of_group)
             fst) by (by intros _ [[v b] g] _).
  rewrite group_by_keys. split; [apply NoDup_remove_dups|].
  split; [intros k; apply elem_of_remove_dups|].
  split_and!.
  - apply (SUM_group_by sales_key s_SalesQuantity).
  - apply (SUM_group_by sales_key s_SalesPrice).
  - apply (SUM_group_by sales_key s_SalesDollars).
  - apply (SUM_group_by sales_key s_ExciseTax).
Qed.

Lemma purchases_joined_total (f : purchases_row → Z) P PP :
  SUM ((λ j, f j.1) <$> purchases_joined P PP)
  = SUM ((λ p, Z.of_nat (length (filter (λ pp, p_Brand p = pp_Brand pp) PP))
               * f p)
           <$> filter (λ p, 0 < p_PurchasePrice p) P).
Proof.
  induction P as [|p P IH]; [done|].
  rewrite purchases_joined_cons, fmap_app, SUM_app, IH, filter_cons.
  destruct (decide (0 < p_PurchasePrice p)) as [Hp|Hp]; [|done].
  rewrite <- list_fmap_compose, fmap_cons. cbn [compose fst SUM foldr].
  by rewrite (SUM_const (f p)).
Qed.

Lemma vendor_table_total src (f : purchases_row → Z)
    (column : vendor_table_row → Z) :
  (∀ k, column (vendor_table_row_of src k)
        = SUM ((λ j, f j.1)
                 <$> filter (λ j, purchase_key j = k)
                       (purchases_joined (purchases src)
                          (purchase_prices src)))) →
  SUM (column <$> vendor_table src)
  = SUM ((λ j, f j.1)
           <$> purchases_joined (purchases src) (purchase_prices src)).
Proof.
  intros Hcolumn.
  rewrite vendor_table_Permutation, <- list_fmap_compose.
  rewrite (list_fmap_ext _ _ _ (λ _ k _, Hcolumn k)).
  unfold purchase_keys.
  rewrite (SUM_groups purchase_key (λ j, f j.1))
    by apply NoDup_remove_dups.
  rewrite filter_all; [done|].
  intros j Hj. apply elem_of_remove_dups. by apply list_elem_of_fmap_2.
Qed.

(** X8: over the whole query result the purchase dollars, and the purchase
    quantities, add up to those of the purchase rows with
    [PurchasePrice > 0], each counted once per row of [purchase_prices] of
    its brand: grouping and the left joins lose and duplicate nothing, the
    inner join alone decides how often a purchase counts. *)
Theorem purchase_totals_conserved src :
  SUM (vt_totalpurchasedollars <$> vendor_table src)
  = SUM ((λ p, Z.of_nat (brand_matches src (p_Brand p)) * p_Dollars p)
           <$> filter (λ p, 0 < p_PurchasePrice p) (purchases src))
  ∧ SUM (vt_totalpurchasequantity <$> vendor_table src)
    = SUM ((λ p, Z.of_nat (brand_matches src (p_Brand p)) * p_Quantity p)
             <$> filter (λ p, 0 < p_PurchasePrice p) (purchases src)).
Proof.
  unfold brand_matches. split.
  - rewrite <- (purchases_joined_total p_Dollars).
    apply vendor_table_total.
    by intros [[[[[[vn name] b] descr] price] volume] actual].
  - rewrite <- (purchases_joined_total p_Quantity).
    apply vendor_table_total.
    by intros [[[[[[vn name] b] descr] price] volume] actual].
Qed.

(** ** Trimming *)

Lemma list_ascii_of_rev_app s1 s2 :
  list_ascii_of_string (String.rev_app s1 s2)
  = rev_append (list_ascii_of_string s1) (list_ascii_of_string s2).
Proof.
  revert s2. induction s1 as [|c s1 IH]; intros s2; [done|].
  simpl. by rewrite IH.
Qed.

Lemma list_ascii_of_rev s :
  list_ascii_of_string (String.rev s) = reverse (list_ascii_of_string s).
Proof. apply list_ascii_of_rev_app. Qed.

Lemma list_ascii_of_lstrip s :
  list_ascii_of_string (lstrip s) = drop_spaces (list_ascii_of_string s).
Proof.
  induction s as [|c s IH]; [done|]. simpl. by destruct (is_space c).
Qed.

Lemma list_ascii_of_strip s :
  list_ascii_of_string (strip s) = trimmed (list_ascii_of_string s).
Proof.
  unfold strip, trimmed.
  by rewrite list_ascii_of_rev, list_ascii_of_lstrip, list_ascii_of_rev,
    list_ascii_of_lstrip.
Qed.

Lemma first_char_head s : first_char s = head (list_ascii_of_string s).
Proof. by destruct s. Qed.

Lemma last_char_head s :
  last_char s = head (reverse (list_ascii_of_string s)).
Proof. unfold last_char. by rewrite first_char_head, list_ascii_of_rev. Qed.

Lemma head_drop_spaces l c :
  head (drop_spaces l) = Some c → is_space c = false.
Proof.
  induction l as [|a l IH]; [done|]. simpl.
  destruct (is_space a) eqn:E; [done|]. simpl. by intros [= <-].
Qed.

Lemma drop_spaces_fixed l :
  (∀ c, head l = Some c → is_space c = false) → drop_spaces l = l.
Proof. destruct l as [|a l]; [done|]. intros H. simpl. by rewrite (H a). Qed.

Lemma drop_spaces_snoc l c :
  is_space c = false → ∃ l', drop_spaces (l ++ [c]) = l' ++ [c].
Proof.
  intros Hc. induction l as [|a l IH]; simpl.
  - exists []. by rewrite Hc.
  - destruct (is_space a); [done|]. by exists (a :: l).
Qed.

Lemma drop_spaces_prefix l :
  ∃ a, l = a ++ drop_spaces l ∧ Forall (λ c, is_space c = true) a.
Proof.
  induction l as [|c l (a & Hl & Ha)]; [by exists []|]. simpl.
  destruct (is_space c) eqn:E.
  - exists (c :: a). split; [simpl; congruence|]. by constructor.
  - by exists [].
Qed.

Lemma trimmed_last l c :
  head (reverse (trimmed l)) = Some c → is_space c = false.
Proof. unfold trimmed. rewrite reverse_involutive. apply head_drop_spaces. Qed.

Lemma trimmed_first l c : head (trimmed l) = Some c → is_space c = false.
Proof.
  unfold trimmed.
  pose proof (head_drop_spaces l) as Hhead.
  destruct (drop_spaces l) as [|a u]; [done|].
  specialize (Hhead a eq_refl). rewrite reverse_cons.
  destruct (drop_spaces_snoc (reverse u) a Hhead) as [l' ->].
  rewrite reverse_snoc. simpl. by intros [= <-].
Qed.

Lemma trimmed_again l : trimmed (trimmed l) = trimmed l.
Proof.
  unfold trimmed at 1.
  rewrite (drop_spaces_fixed (trimmed l)) by apply trimmed_first.
  rewrite (drop_spaces_fixed (reverse (trimmed l))) by apply trimmed_last.
  apply reverse_involutive.
Qed.

Lemma trimmed_between l :
  ∃ a b, l = a ++ trimmed l ++ b
         ∧ Forall (λ c, is_space c = true) a
         ∧ Forall (λ c, is_space c = true) b.
Proof.
  unfold trimmed.
  destruct (drop_spaces_prefix l) as (a & Hl & Ha).
  destruct (drop_spaces_prefix (reverse (drop_spaces l))) as (b & Hr & Hb).
  exists a, (reverse b). split; [|split; [done|]].
  - rewrite Hl at 1. f_equal.
    rewrite <- (reverse_involutive (drop_spaces l)) at 1.
    rewrite Hr at 1. by rewrite reverse_app.
  - by apply Forall_reverse.
Qed.

Lemma strip_idempotent s : strip (strip s) = strip s.
Proof.
  rewrite <- (string_of_list_ascii_of_string (strip (strip s))).
  rewrite !list_ascii_of_strip, trimmed_again, <- list_ascii_of_strip.
  apply string_of_list_ascii_of_string.
Qed.

(** X9: in a written row [VendorName] is never the 0 of [fillna]: it is
    either missing, for a purchase row of the vendor without name, or the
    name of a purchase row of the vendor with nothing but white space
    removed at its two ends; it neither starts nor ends with white space
    and trimming it again changes nothing. *)
Theorem written_VendorName db r :
  persisted db r →
  match VendorName (columns r) with
  | PyStr s =>
      (∃ p n a b,
         p ∈ purchases (db_sources db)
         ∧ p_VendorNumber p = VendorNumber (columns r)
         ∧ p_VendorName p = Some n
         ∧ list_ascii_of_string n = a ++ list_ascii_of_string s ++ b
         ∧ Forall (λ c, is_space c = true) a
         ∧ Forall (λ c, is_space c = true) b)
      ∧ (∀ c, first_char s = Some c → is_space c = false)
      ∧ (∀ c, last_char s = Some c → is_space c = false)
      ∧ strip s = s
  | PyNA =>
      ∃ p, p ∈ purchases (db_sources db)
           ∧ p_VendorNumber p = VendorNumber (columns r)
           ∧ p_VendorName p = None
  | PyInt _ => False
  end.
Proof.
  intros (p & pp & Hp & _ & _ & _ & ->)%persisted_purchase.
  rewrite cleaned_VendorName, cleaned_VendorNumber. simpl.
  destruct (p_VendorName p) as [n|] eqn:Hn; simpl; [|by exists p].
  split_and!.
  - destruct (trimmed_between (list_ascii_of_string n))
      as (a & b & Hab & Ha & Hb).
    exists p, n, a, b. by rewrite list_ascii_of_strip.
  - intros c. rewrite first_char_head, list_ascii_of_strip.
    apply trimmed_first.
  - intros c. rewrite last_char_head, list_ascii_of_strip.
    apply trimmed_last.
  - apply strip_idempotent.
Qed.

Lemma written_VendorName_witness :
  let r := written_row scenario (acme_gin, brand_A) in
  persisted scenario_db r
  ∧ VendorName (columns r) = PyStr "ACME"
  ∧ last_char "ACME" = Some "E"%char
  ∧ is_space "E" = false.
Proof.
  intros r.
  assert (persisted scenario_db r) as Hr by run_job.
  split; [done|]. split; [done|]. split; [done|].
  pose proof (written_VendorName scenario_db r Hr) as H.
  change (VendorName (columns r)) with (PyStr "ACME") in H.
  destruct H as (_ & _ & Hlast & _). by apply Hlast.
Defined.

(** ** More on the derived columns *)

(** X10: in a row written for a vendor and brand without sale rows, when
    [totalpurchasedollars] is zero [ProfitMargin] and
    [SalesToPurchaseRatio] are NaN, when it is negative [ProfitMargin] is
    plus infinity and [SalesToPurchaseRatio] is minus zero, and when
    [totalpurchasequantity] is zero [StockTurnover] is NaN. *)
Theorem no_sales_nonpositive db r :
  persisted db r →
  (∀ s, s ∈ sales (db_sources db) →
        ¬ (s_VendorNo s = VendorNumber (columns r)
           ∧ s_Brand s = Brand (columns r))) →
  (is_zero (totalpurchasedollars (columns r))
   → ProfitMargin r = NaN ∧ SalesToPurchaseRatio r = NaN)
  ∧ (f64_ltb (totalpurchasedollars (columns r)) zero = true
     → ProfitMargin r = pos_infinity ∧ SalesToPurchaseRatio r = neg_zero)
  ∧ (is_zero (totalpurchasequantity (columns r)) → StockTurnover r = NaN).
Proof.
  intros Hr Hs.
  destruct (persisted_no_sales db r Hr Hs) as (Hq & _ & Hd & _).
  rewrite (persisted_add_columns db r Hr).
  cbn [add_columns columns ProfitMargin StockTurnover SalesToPurchaseRatio].
  rewrite Hq, Hd. split_and!.
  - by destruct (totalpurchasedollars (columns r)) as [[]| | |].
  - by destruct (totalpurchasedollars (columns r)) as [|[]| |[]].
  - by destruct (totalpurchasequantity (columns r)) as [[]| | |].
Qed.

Lemma no_sales_nonpositive_witness :
  let refunded := written_row (db_sources odd_totals_db)
                    (refunded_gin, brand_A) in
  let void := written_row (db_sources odd_totals_db) (void_gin, brand_A) in
  persisted odd_totals_db refunded ∧ persisted odd_totals_db void
  ∧ ProfitMargin refunded = pos_infinity
  ∧ SalesToPurchaseRatio refunded = neg_zero
  ∧ ProfitMargin void = NaN ∧ SalesToPurchaseRatio void = NaN
  ∧ StockTurnover void = NaN.
Proof.
  intros refunded void.
  assert (persisted odd_totals_db refunded) as Hr by run_job.
  assert (persisted odd_totals_db void) as Hv by run_job.
  assert (∀ s, s ∈ sales (db_sources odd_totals_db) → False) as Hs
    by (intros s Hin; by apply elem_of_nil in Hin).
  destruct (no_sales_nonpositive odd_totals_db refunded Hr) as (_ & Hneg & _);
    [intros s Hin; destruct (Hs s Hin)|].
  destruct (no_sales_nonpositive odd_totals_db void Hv) as (Hz & _ & Hzq);
    [intros s Hin; destruct (Hs s Hin)|].
  destruct Hneg as [? ?]; [done|].
  destruct Hz as [? ?]; [done|].
  split_and!; first [assumption | by apply Hzq].
Defined.

Lemma SFdiv_core_binary_nonneg prec emax m1 e1 m2 e2 :
  0 ≤ (SFdiv_core_binary prec emax (Zpos m1) e1 (Zpos m2) e2).1.1.
Proof.
  unfold SFdiv_core_binary.
  set (s := (e1 - e2 - _)%Z).
  set (m' := match s with Z0 => _ | Zpos _ => _ | Zneg _ => _ end).
  assert (0 ≤ m') as Hm'.
  { subst m'. destruct s; try lia. by apply Z.shiftl_nonneg. }
  pose proof (Z.div_pos m' (Zpos m2) Hm' eq_refl) as Hq.
  unfold Z.div in Hq. by destruct (Z.div_eucl m' (Zpos m2)).
Qed.

Lemma f64_div_not_nan x y :
  x ≠ NaN → is_finite y → ¬ is_zero y → f64_div x y ≠ NaN.
Proof.
  intros Hx Hy Hnz. destruct y as [| | |sy my ey]; try done.
  destruct x as [sx|sx| |sx mx ex]; try done.
  unfold f64_div, SFdiv.
  pose proof (SFdiv_core_binary_nonneg 53 1024 mx ex my ey) as Hq.
  destruct (SFdiv_core_binary _ _ _ _ _ _) as [[mz ez] lz].
  by apply binary_round_aux_not_nan.
Qed.

Lemma f64_mul_hundred_not_nan x : x ≠ NaN → f64_mul x hundred ≠ NaN.
Proof.
  intros Hx. destruct x as [sx|sx| |sx mx ex]; try done.
  by apply binary_round_aux_not_nan.
Qed.

Lemma f64_sub_not_nan x y : is_finite x → is_finite y → f64_sub x y ≠ NaN.
Proof.
  intros Hx Hy.
  destruct x as [[]| | |sx mx ex], y as [[]| | |sy my ey]; try done.
  apply binary_normalize_not_nan.
Qed.

(** X11: a derived column of a written row is NaN only through a zero
    divisor or an aggregate that overflowed: when the aggregates it is
    computed from are numbers and its divisor is not zero, [ProfitMargin],
    [StockTurnover] and [SalesToPurchaseRatio] are not NaN, and
    [GrossProfit] is not NaN whenever its two aggregates are numbers. *)
Theorem metrics_are_not_nan db r :
  persisted db r →
  let c := columns r in
  (is_finite (totalsalesdollars c) → is_finite (totalpurchasedollars c) →
   GrossProfit r ≠ NaN
   ∧ (¬ is_zero (totalsalesdollars c) → ProfitMargin r ≠ NaN)
   ∧ (¬ is_zero (totalpurchasedollars c) → SalesToPurchaseRatio r ≠ NaN))
  ∧ (is_finite (totalsalesquantity c) → is_finite (totalpurchasequantity c) →
     ¬ is_zero (totalpurchasequantity c) → StockTurnover r ≠ NaN).
Proof.
  intros Hr c. subst c. rewrite (persisted_add_columns db r Hr).
  cbn [add_columns columns GrossProfit ProfitMargin StockTurnover
       SalesToPurchaseRatio].
  split.
  - intros Hs Hp. pose proof (f64_sub_not_nan _ _ Hs Hp) as Hgross.
    split_and!; [done| |].
    + intros Hnz. by apply f64_mul_hundred_not_nan, f64_div_not_nan.
    + intros Hnz. apply f64_div_not_nan; [|done..].
      by destruct (totalsalesdollars (columns r)).
  - intros Hs Hp Hnz. apply f64_div_not_nan; [|done..].
    by destruct (totalsalesquantity (columns r)).
Qed.

Lemma metrics_are_not_nan_witness :
  let r := written_row scenario (acme_gin, brand_A) in
  persisted scenario_db r
  ∧ is_finite (totalsalesdollars (columns r))
  ∧ is_finite (totalpurchasedollars (columns r))
  ∧ ¬ is_zero (totalsalesdollars (columns r))
  ∧ GrossProfit r ≠ NaN ∧ ProfitMargin r ≠ NaN.
Proof.
  intros r.
  assert (persisted scenario_db r) as Hr by run_job.
  destruct (metrics_are_not_nan scenario_db r Hr) as [Hd _].
  destruct Hd as (Hg & Hm & _); [exact I..|].
  split_and!; [done|exact I|exact I|by intros []|done|apply Hm; by intros []].
Defined.

(** ** The columns taken over from the source tables *)

Lemma fillna_float_not_nan x : fillna_float x ≠ NaN.
Proof. by destruct x. Qed.

(** X12: every written row carries the vendor, the brand and the positive
    [PurchasePrice] of a purchase row, and the [Volume] and the price of a
    row of [purchase_prices] of the same brand, as floats; a null
    [Description] is written as the integer 0, any other one unchanged;
    and none of the ten numeric columns of the query is missing. *)
Theorem written_source_columns db r :
  persisted db r →
  let c := columns r in
  (∃ p pp,
     p ∈ purchases (db_sources db) ∧ pp ∈ purchase_prices (db_sources db)
     ∧ p_Brand p = pp_Brand pp ∧ 0 < p_PurchasePrice p
     ∧ VendorNumber c = p_VendorNumber p ∧ Brand c = p_Brand p
     ∧ PurchasePrice c = f64_of_Z (p_PurchasePrice p)
     ∧ actualprice c = f64_of_Z (pp_Price pp)
     ∧ Volume c = f64_of_Z (pp_Volume pp)
     ∧ Description c = from_option PyStr (PyInt 0) (p_Description p))
  ∧ Forall (λ x, x ≠ NaN)
      [ PurchasePrice c; actualprice c; Volume c; totalpurchasedollars c;
        totalpurchasequantity c; freightcost c; totalsalesprice c;
        totalsalesquantity c; totalsalesdollars c; totalexcisetax c ].
Proof.
  intros (p & pp & Hp & Hpp & Hb & Hprice & ->)%persisted_purchase c.
  split.
  - exists p, pp. split_and!; try done.
    + apply fillna_float_of_Z.
    + apply fillna_float_of_Z.
    + apply fillna_float_of_Z.
    + subst c. simpl. by destruct (p_Description p).
  - subst c. repeat constructor; apply fillna_float_not_nan.
Qed.

Lemma written_source_columns_witness :
  let r := written_row (db_sources null_name_db) (anonymous_gin, brand_A) in
  persisted null_name_db r
  ∧ Description (columns r) = PyInt 0
  ∧ Volume (columns r) = f64_of_Z 750
  ∧ totalsalesdollars (columns r) ≠ NaN.
Proof.
  intros r.
  assert (persisted null_name_db r) as Hr by run_job.
  destruct (written_source_columns null_name_db r Hr) as [_ Hnum].
  do 3 (split; [done|]).
  do 8 apply Forall_cons_1 in Hnum as [_ Hnum].
  by apply Forall_cons_1 in Hnum as [Hnum _].
Defined.

Lemma f64_sub_diag x : is_finite x → ¬ is_zero x → f64_sub x x = zero.
Proof.
  destruct x as [| | |s m e]; try done. intros _ _.
  unfold f64_sub, SFsub. by rewrite Z.sub_diag.
Qed.

(** X13: a written row whose sales dollars equal its purchase dollars, both
    a number other than zero, has [GrossProfit] 0 and a [ProfitMargin] that
    is a zero. *)
Theorem break_even db r :
  persisted db r →
  totalsalesdollars (columns r) = totalpurchasedollars (columns r) →
  is_finite (totalsalesdollars (columns r)) →
  ¬ is_zero (totalsalesdollars (columns r)) →
  GrossProfit r = zero ∧ is_zero (ProfitMargin r).
Proof.
  intros Hr Heq Hfin Hnz. rewrite (persisted_add_columns db r Hr).
  cbn [add_columns columns GrossProfit ProfitMargin].
  rewrite <- Heq, (f64_sub_diag _ Hfin Hnz). split; [done|].
  by destruct (totalsalesdollars (columns r)) as [| | |[] m e].
Qed.

Lemma break_even_witness :
  let r := written_row (db_sources break_even_db) (acme_gin, brand_A) in
  persisted break_even_db r
  ∧ totalsalesdollars (columns r) = f64_of_Z 100
  ∧ totalpurchasedollars (columns r) = f64_of_Z 100
  ∧ GrossProfit r = zero ∧ is_zero (ProfitMargin r).
Proof.
  intros r.
  assert (persisted break_even_db r) as Hr by run_job.
  split; [done|]. split; [done|]. split; [done|].
  apply (break_even break_even_db r Hr); [done|exact I|by intros []].
Defined.

(** ** The raise of line 77 *)

Lemma elem_of_purchases_joined P PP j :
  j ∈ purchases_joined P PP
  ↔ j.1 ∈ P ∧ j.2 ∈ PP ∧ p_Brand j.1 = pp_Brand j.2
    ∧ 0 < p_PurchasePrice j.1.
Proof.
  unfold purchases_joined. rewrite list_elem_of_filter.
  rewrite (elem_of_inner_join (λ j, p_Brand j.1 = pp_Brand j.2)). tauto.
Qed.

(** X4: when the query returns at least one row, that is when a purchase
    row with [PurchasePrice > 0] has its brand in [purchase_prices], and
    every such purchase row has a null [VendorName], the script raises
    before line 86 and writes nothing. *)
Theorem null_names_raise db :
  (∃ p pp, p ∈ purchases (db_sources db)
           ∧ pp ∈ purchase_prices (db_sources db)
           ∧ p_Brand p = pp_Brand pp ∧ 0 < p_PurchasePrice p) →
  (∀ p pp, p ∈ purchases (db_sources db) →
           pp ∈ purchase_prices (db_sources db) →
           p_Brand p = pp_Brand pp → 0 < p_PurchasePrice p →
           p_VendorName p = None) →
  job db = None.
Proof.
  intros (p & pp & Hp & Hpp & Hb & Hprice) Hnull.
  destruct (job db) as [db'|] eqn:Hjob; [|done].
  assert (is_Some (job db)) as Hrun by (by rewrite Hjob).
  apply job_runs in Hrun as ([q qq] & Hj & [name Hname]).
  - apply elem_of_purchases_joined in Hj as (Hq & Hqq & Hqb & Hqprice).
    simpl in *. rewrite (Hnull q qq Hq Hqq Hqb Hqprice) in Hname. done.
  - exists (p, pp). split; [by apply elem_of_purchases_joined|].
    by apply (Hnull p pp).
Qed.

Lemma null_names_raise_witness :
  anonymous_gin ∈ purchases (db_sources all_null_names_db)
  ∧ p_VendorName anonymous_gin = None
  ∧ job all_null_names_db = None.
Proof.
  split; [left|]. split; [done|].
  apply null_names_raise.
  - exists anonymous_gin, brand_A. split_and!; [left|left|done|done].
  - intros p pp Hp _ _ _. change (p ∈ [anonymous_gin]) in Hp.
    by apply list_elem_of_singleton in Hp as ->.
Defined.
